(** * Stack-Lend: the peer-to-peer loan escrow, embedded and verified

    The development follows [contracts/p2p-lending.clar] and the mock
    SIP-010 token it calls ([sbtc-token]).  Clarity values are embedded
    shallowly: [uint] is [N] (128 bits, arithmetic that overflows aborts the
    transaction), [principal] is an inductive type, the [loans] data map is
    a [gmap], and every public function is a state-passing computation over
    the chain state that returns a Clarity response. *)

From Stdlib Require Import NArith Lia.
From stdpp Require Import base decidable countable option gmap.

Local Open Scope N_scope.

(** ** Clarity values *)

(** A principal is a standard (wallet) address or a contract identifier. *)
Inductive principal : Type :=
  | Standard (a : N)
  | Contract (c : N).

#[global] Instance principal_eq_dec : EqDecision principal.
Proof. solve_decision. Defined.

Definition principal_to_sum (p : principal) : N + N :=
  match p with Standard a => inl a | Contract c => inr c end.

Definition principal_of_sum (s : N + N) : principal :=
  match s with inl a => Standard a | inr c => Contract c end.

#[global] Instance principal_countable : Countable principal.
Proof.
  apply (inj_countable' principal_to_sum principal_of_sum).
  intros []; reflexivity.
Defined.

(** The largest [uint]. *)
Definition UINT_MAX : N := 2 ^ 128 - 1.

(** What evaluating a public function yields: [(ok v)], [(err code)], or a
    runtime error (an arithmetic overflow), which aborts the transaction. *)
Inductive response (A : Type) : Type :=
  | ok (a : A)
  | err (e : N)
  | runtime_error.
Arguments ok {A} a.
Arguments err {A} e.
Arguments runtime_error {A}.

(** ** The loan record and the chain state *)

Record loan : Type := mk_loan {
  borrower : principal;
  lender : option principal;
  principal_is_stx : bool;
  principal_amount : N;
  collateral_is_stx : bool;
  collateral_amount : N;
  repay_amount : N;
  start_block : N;
  end_block : N;
  status : N
}.

#[global] Instance loan_eq_dec : EqDecision loan.
Proof. solve_decision. Defined.

(** The state the contracts read and write: the [loans] map of the lending
    contract, the STX balances kept by the chain and the balances of the
    [sbtc] fungible token. *)
Record chain : Type := mk_chain {
  loans : gmap N loan;
  stx_balances : gmap principal N;
  sbtc_balances : gmap principal N
}.

(** What a call sees of its transaction. *)
Record context : Type := mk_context {
  tx_sender : principal;
  contract_caller : principal;
  block_height : N
}.

(** ** Computations: state passing with early exit

    A computation returns its response and the state it reached; on [err]
    the state is the one reached when the error was raised, so that the
    rollback done by the chain ([public_call]) is visible in the model. *)
Definition M (A : Type) : Type := chain -> response A * chain.

Definition ret {A} (a : A) : M A := fun st => (ok a, st).

Definition throw {A} (e : N) : M A := fun st => (err e, st).

Definition abort {A} : M A := fun st => (runtime_error, st).

Definition bind {A B} (m : M A) (k : A -> M B) : M B :=
  fun st =>
    match m st with
    | (ok a, st') => k a st'
    | (err e, st') => (err e, st')
    | (runtime_error, st') => (runtime_error, st')
    end.

Notation "x <- m ;; k" := (bind m (fun x => k))
  (at level 100, m at next level, right associativity).
Notation "m ;;; k" := (bind m (fun _ => k))
  (at level 100, right associativity).

(** [(asserts! b (err e))] *)
Definition asserts (b : bool) (e : N) : M bool :=
  if b then ret true else throw e.

(** [(unwrap! o (err e))] *)
Definition unwrap {A} (o : option A) (e : N) : M A :=
  match o with Some a => ret a | None => throw e end.

(** [(+ a b)] on [uint]: overflow is a runtime error. *)
Definition uint_add (a b : N) : M N :=
  if a + b <=? UINT_MAX then ret (a + b) else abort.

(** A call of a public function commits its writes only when the function
    returns [(ok _)]; on [(err _)] and on a runtime error every write made
    during the call is discarded. *)
Definition public_call {A} (body : M A) : M A :=
  fun st =>
    match body st with
    | (ok a, st') => (ok a, st')
    | (r, _) => (r, st)
    end.

(** ** Built-in asset functions *)

Definition balance (m : gmap principal N) (p : principal) : N :=
  default 0 (m !! p).

Definition move (amount : N) (sender recipient : principal)
    (m : gmap principal N) : gmap principal N :=
  let m1 := <[sender := balance m sender - amount]> m in
  <[recipient := balance m1 recipient + amount]> m1.

(** [(stx-transfer? amount sender recipient)], as the Clarity language
    reference defines it: "The sender principal must be equal to the current
    context's tx-sender."  It returns [(ok true)] or one of
    [(err u1)], the sender does not have enough balance;
    [(err u2)], sender and recipient are the same principal;
    [(err u3)], the amount is not positive;
    [(err u4)], the sender principal is not the current [tx-sender].
    The interpreter checks the amount, then the two principals, then the
    sender, then the balance. *)
Definition stx_transfer (cx : context) (amount : N)
    (sender recipient : principal) : M bool :=
  fun st =>
    if amount =? 0 then (err 3, st)
    else if bool_decide (sender = recipient) then (err 2, st)
    else if negb (bool_decide (sender = tx_sender cx)) then (err 4, st)
    else if balance (stx_balances st) sender <? amount then (err 1, st)
    else (ok true,
          {| loans := loans st;
             stx_balances := move amount sender recipient (stx_balances st);
             sbtc_balances := sbtc_balances st |}).

(** [(ft-transfer? sbtc amount sender recipient)]: [(err u3)] for a zero
    amount, [(err u2)] when sender and recipient are the same principal,
    [(err u1)] when the sender's balance is too small.  Unlike
    [stx-transfer?] it does not look at who calls: any contract may move its
    own token between any two principals, which is why [sbtc-token] guards
    its [transfer] itself. *)
Definition ft_transfer (amount : N) (sender recipient : principal) : M bool :=
  fun st =>
    if amount =? 0 then (err 3, st)
    else if bool_decide (sender = recipient) then (err 2, st)
    else if balance (sbtc_balances st) sender <? amount then (err 1, st)
    else (ok true,
          {| loans := loans st;
             stx_balances := stx_balances st;
             sbtc_balances := move amount sender recipient (sbtc_balances st) |}).

(** ** The token contract [sbtc-token] *)

Module Token.

Definition ERR_NOT_OWNER : N := 200.
Definition ERR_UNAUTHORIZED : N := 201.

Definition get_balance (who : principal) (st : chain) : N :=
  balance (sbtc_balances st) who.

(** [(define-public (transfer amount sender recipient memo))]; the memo is
    not used by the function. *)
Definition transfer (cx : context) (amount : N)
    (sender recipient : principal) : M bool :=
  asserts (bool_decide (tx_sender cx = sender)
           || bool_decide (contract_caller cx = sender)) ERR_UNAUTHORIZED ;;;
  ft_transfer amount sender recipient ;;;
  ret true.

End Token.

(** ** The lending contract [p2p-lending] *)

Definition STATUS_OPEN : N := 0.
Definition STATUS_FUNDED : N := 1.
Definition STATUS_REPAID : N := 2.
Definition STATUS_DEFAULTED : N := 3.
Definition STATUS_CANCELLED : N := 4.

Definition ERR_LOAN_EXISTS : N := 100.
Definition ERR_LOAN_NOT_FOUND : N := 101.
Definition ERR_NOT_BORROWER : N := 102.
Definition ERR_NOT_LENDER : N := 103.
Definition ERR_NOT_OPEN : N := 104.
Definition ERR_NOT_FUNDED : N := 105.
Definition ERR_PAST_DUE : N := 106.
Definition ERR_NOT_PAST_DUE : N := 107.
Definition ERR_BAD_AMOUNT : N := 108.
Definition ERR_SAME_ASSET : N := 109.
Definition ERR_NO_LENDER : N := 110.
Definition ERR_BAD_REPAY : N := 111.

(** The lending contract's own principal, [(as-contract tx-sender)]. *)
Definition contract_self : principal := Contract 0.

(** [.sbtc-token] *)
Definition TOKEN_CONTRACT : principal := Contract 1.

(** The context in which a function called through [contract-call?] from
    the lending contract runs: same [tx-sender], the lending contract as
    [contract-caller]. *)
Definition called_from_lending (cx : context) : context :=
  {| tx_sender := tx_sender cx;
     contract_caller := contract_self;
     block_height := block_height cx |}.

Definition transfer_asset (cx : context) (is_stx : bool) (amount : N)
    (sender recipient : principal) : M bool :=
  if is_stx
  then stx_transfer cx amount sender recipient
  else public_call
         (Token.transfer (called_from_lending cx) amount sender recipient).

Definition get_loan (loan_id : N) (st : chain) : option loan :=
  loans st !! loan_id.

(** [(map-set loans {loan-id: loan-id} l)] *)
Definition map_set_loans (loan_id : N) (l : loan) : M bool :=
  fun st =>
    (ok true,
     {| loans := <[loan_id := l]> (loans st);
        stx_balances := stx_balances st;
        sbtc_balances := sbtc_balances st |}).

(** [(merge loan {status: s})] *)
Definition merge_status (l : loan) (s : N) : loan :=
  {| borrower := borrower l;
     lender := lender l;
     principal_is_stx := principal_is_stx l;
     principal_amount := principal_amount l;
     collateral_is_stx := collateral_is_stx l;
     collateral_amount := collateral_amount l;
     repay_amount := repay_amount l;
     start_block := start_block l;
     end_block := end_block l;
     status := s |}.

(** [(merge loan {lender: .., start-block: .., end-block: .., status: ..})] *)
Definition merge_funded (l : loan) (who : principal) (start stop : N) : loan :=
  {| borrower := borrower l;
     lender := Some who;
     principal_is_stx := principal_is_stx l;
     principal_amount := principal_amount l;
     collateral_is_stx := collateral_is_stx l;
     collateral_amount := collateral_amount l;
     repay_amount := repay_amount l;
     start_block := start;
     end_block := stop;
     status := STATUS_FUNDED |}.

Definition create_loan (cx : context) (loan_id : N)
    (principal_is_stx0 : bool) (principal_amount0 repay_amount0 duration : N)
    (collateral_is_stx0 : bool) (collateral_amount0 : N) : M bool :=
  fun st =>
   (asserts (bool_decide (get_loan loan_id st = None)) ERR_LOAN_EXISTS ;;;
    asserts (negb (eqb principal_is_stx0 collateral_is_stx0)) ERR_SAME_ASSET ;;;
    asserts (0 <? principal_amount0) ERR_BAD_AMOUNT ;;;
    asserts (0 <? collateral_amount0) ERR_BAD_AMOUNT ;;;
    asserts (0 <? duration) ERR_BAD_AMOUNT ;;;
    asserts (principal_amount0 <=? repay_amount0) ERR_BAD_REPAY ;;;
    transfer_asset cx collateral_is_stx0 collateral_amount0
      (tx_sender cx) contract_self ;;;
    map_set_loans loan_id
      {| borrower := tx_sender cx;
         lender := None;
         principal_is_stx := principal_is_stx0;
         principal_amount := principal_amount0;
         collateral_is_stx := collateral_is_stx0;
         collateral_amount := collateral_amount0;
         repay_amount := repay_amount0;
         start_block := 0;
         end_block := duration;
         status := STATUS_OPEN |} ;;;
    ret true) st.

Definition cancel_loan (cx : context) (loan_id : N) : M bool :=
  fun st =>
    match get_loan loan_id st with
    | Some l =>
       (asserts (status l =? STATUS_OPEN) ERR_NOT_OPEN ;;;
        asserts (bool_decide (tx_sender cx = borrower l)) ERR_NOT_BORROWER ;;;
        transfer_asset cx (collateral_is_stx l) (collateral_amount l)
          contract_self (borrower l) ;;;
        map_set_loans loan_id (merge_status l STATUS_CANCELLED) ;;;
        ret true) st
    | None => (err ERR_LOAN_NOT_FOUND, st)
    end.

Definition fund_loan (cx : context) (loan_id : N) : M bool :=
  fun st =>
    match get_loan loan_id st with
    | Some l =>
       (asserts (status l =? STATUS_OPEN) ERR_NOT_OPEN ;;;
        transfer_asset cx (principal_is_stx l) (principal_amount l)
          (tx_sender cx) contract_self ;;;
        transfer_asset cx (principal_is_stx l) (principal_amount l)
          contract_self (borrower l) ;;;
        stop <- uint_add (block_height cx) (end_block l) ;;
        map_set_loans loan_id
          (merge_funded l (tx_sender cx) (block_height cx) stop) ;;;
        ret true) st
    | None => (err ERR_LOAN_NOT_FOUND, st)
    end.

(** The deadline guard of [repay]: [(<= block-height end-block)]. *)
Definition repay_deadline_ok (height stop : N) : bool := height <=? stop.

(** The deadline guard of [claim-default]: [(> block-height end-block)]. *)
Definition default_deadline_ok (height stop : N) : bool := stop <? height.

Definition repay (cx : context) (loan_id : N) : M bool :=
  fun st =>
    match get_loan loan_id st with
    | Some l =>
       (asserts (status l =? STATUS_FUNDED) ERR_NOT_FUNDED ;;;
        asserts (bool_decide (tx_sender cx = borrower l)) ERR_NOT_BORROWER ;;;
        asserts (repay_deadline_ok (block_height cx) (end_block l))
          ERR_PAST_DUE ;;;
        lender0 <- unwrap (lender l) ERR_NO_LENDER ;;
        transfer_asset cx (principal_is_stx l) (repay_amount l)
          (tx_sender cx) lender0 ;;;
        transfer_asset cx (collateral_is_stx l) (collateral_amount l)
          contract_self (borrower l) ;;;
        map_set_loans loan_id (merge_status l STATUS_REPAID) ;;;
        ret true) st
    | None => (err ERR_LOAN_NOT_FOUND, st)
    end.

Definition claim_default (cx : context) (loan_id : N) : M bool :=
  fun st =>
    match get_loan loan_id st with
    | Some l =>
       (asserts (status l =? STATUS_FUNDED) ERR_NOT_FUNDED ;;;
        asserts (default_deadline_ok (block_height cx) (end_block l))
          ERR_NOT_PAST_DUE ;;;
        lender0 <- unwrap (lender l) ERR_NO_LENDER ;;
        asserts (bool_decide (tx_sender cx = lender0)) ERR_NOT_LENDER ;;;
        transfer_asset cx (collateral_is_stx l) (collateral_amount l)
          contract_self lender0 ;;;
        map_set_loans loan_id (merge_status l STATUS_DEFAULTED) ;;;
        ret true) st
    | None => (err ERR_LOAN_NOT_FOUND, st)
    end.

(** ** Transactions *)

(** The five write operations with their arguments. *)
Inductive operation : Type :=
  | CreateLoan (loan_id : N) (principal_is_stx0 : bool)
      (principal_amount0 repay_amount0 duration : N)
      (collateral_is_stx0 : bool) (collateral_amount0 : N)
  | CancelLoan (loan_id : N)
  | FundLoan (loan_id : N)
  | Repay (loan_id : N)
  | ClaimDefault (loan_id : N).

Definition operation_id (o : operation) : N :=
  match o with
  | CreateLoan i _ _ _ _ _ _ => i
  | CancelLoan i | FundLoan i | Repay i | ClaimDefault i => i
  end.

(** The body of the public function an operation names. *)
Definition body (cx : context) (o : operation) : M bool :=
  match o with
  | CreateLoan i ps pa ra d cs ca => create_loan cx i ps pa ra d cs ca
  | CancelLoan i => cancel_loan cx i
  | FundLoan i => fund_loan cx i
  | Repay i => repay cx i
  | ClaimDefault i => claim_default cx i
  end.

(** A transaction signed by [who], mined at [height], that calls the
    lending contract directly. *)
Definition direct (who : principal) (height : N) : context :=
  {| tx_sender := who; contract_caller := who; block_height := height |}.

Definition exec (cx : context) (o : operation) : M bool :=
  public_call (body cx o).

(** Running a block of transactions: calls to the lending contract, and
    anything else on the chain that changes balances (token mints, transfers
    between wallets) but cannot write the [loans] map, which only the
    lending contract owns. *)
Inductive event : Type :=
  | Call (cx : context) (o : operation)
  | Elsewhere (stx sbtc : gmap principal N).

Definition apply_event (ev : event) (st : chain) : chain :=
  match ev with
  | Call cx o => (exec cx o st).2
  | Elsewhere stx sbtc =>
      {| loans := loans st; stx_balances := stx; sbtc_balances := sbtc |}
  end.

Fixpoint run (tr : list event) (st : chain) : chain :=
  match tr with
  | [] => st
  | ev :: tr' => run tr' (apply_event ev st)
  end.

(** The state after [(map-set loans {loan-id: loan_id} l)]. *)
Definition with_loan (loan_id : N) (l : loan) (st : chain) : chain :=
  {| loans := <[loan_id := l]> (loans st);
     stx_balances := stx_balances st;
     sbtc_balances := sbtc_balances st |}.

(** The record [create-loan] stores. *)
Definition opened (who : principal) (principal_is_stx0 : bool)
    (principal_amount0 repay_amount0 duration : N)
    (collateral_is_stx0 : bool) (collateral_amount0 : N) : loan :=
  {| borrower := who;
     lender := None;
     principal_is_stx := principal_is_stx0;
     principal_amount := principal_amount0;
     collateral_is_stx := collateral_is_stx0;
     collateral_amount := collateral_amount0;
     repay_amount := repay_amount0;
     start_block := 0;
     end_block := duration;
     status := STATUS_OPEN |}.

(** ** Views used in the statements *)

Definition succeeds {A} (r : response A * chain) : bool :=
  match r.1 with ok _ => true | _ => false end.

(** The balance of [who] in one of the two asset kinds. *)
Definition asset_balance (is_stx : bool) (st : chain) (who : principal) : N :=
  if is_stx then balance (stx_balances st) who
  else balance (sbtc_balances st) who.

(** The state after [amount] of one asset kind went from [sender] to
    [recipient]. *)
Definition moved (is_stx : bool) (amount : N) (sender recipient : principal)
    (st : chain) : chain :=
  if is_stx
  then {| loans := loans st;
          stx_balances := move amount sender recipient (stx_balances st);
          sbtc_balances := sbtc_balances st |}
  else {| loans := loans st;
          stx_balances := stx_balances st;
          sbtc_balances := move amount sender recipient (sbtc_balances st) |}.

(** The code with which [transfer-asset] fails, if it fails. *)
Definition transfer_failure (cx : context) (is_stx : bool) (amount : N)
    (sender recipient : principal) (st : chain) : option N :=
  if is_stx then
    if amount =? 0 then Some 3
    else if bool_decide (sender = recipient) then Some 2
    else if negb (bool_decide (sender = tx_sender cx)) then Some 4
    else if asset_balance true st sender <? amount then Some 1
    else None
  else
    if negb (bool_decide (tx_sender cx = sender)
             || bool_decide (contract_self = sender))
    then Some Token.ERR_UNAUTHORIZED
    else if amount =? 0 then Some 3
    else if bool_decide (sender = recipient) then Some 2
    else if asset_balance false st sender <? amount then Some 1
    else None.

(** The status stored for a loan id, if any. *)
Definition status_of (loan_id : N) (st : chain) : option N :=
  status <$> get_loan loan_id st.

(** The transitions of the loan life cycle; [None] is "no record yet". *)
Definition edge (a b : option N) : bool :=
  match a, b with
  | None, Some s => s =? STATUS_OPEN
  | Some s, Some s' =>
      (s =? STATUS_OPEN) && (s' =? STATUS_FUNDED)
      || (s =? STATUS_OPEN) && (s' =? STATUS_CANCELLED)
      || (s =? STATUS_FUNDED) && (s' =? STATUS_REPAID)
      || (s =? STATUS_FUNDED) && (s' =? STATUS_DEFAULTED)
  | _, None => false
  end.

Definition terminal (s : N) : bool :=
  (s =? STATUS_REPAID) || (s =? STATUS_DEFAULTED) || (s =? STATUS_CANCELLED).

(** Paths through the life cycle. *)
Inductive path : option N -> option N -> Prop :=
  | path_refl a : path a a
  | path_step a b c : path a b -> edge b c = true -> path a c.

(** What a successful operation writes under its loan id: the record
    before (if any) and the record after. *)
Inductive transition : operation -> option loan -> loan -> Prop :=
  | transition_create i who ps pa ra d cs ca :
      eqb ps cs = false -> 0 < pa -> 0 < ca -> 0 < d -> pa <= ra ->
      transition (CreateLoan i ps pa ra d cs ca) None
        (opened who ps pa ra d cs ca)
  | transition_cancel i l :
      status l = STATUS_OPEN ->
      transition (CancelLoan i) (Some l) (merge_status l STATUS_CANCELLED)
  | transition_fund i l who start stop :
      status l = STATUS_OPEN ->
      transition (FundLoan i) (Some l) (merge_funded l who start stop)
  | transition_repay i l :
      status l = STATUS_FUNDED ->
      transition (Repay i) (Some l) (merge_status l STATUS_REPAID)
  | transition_default i l :
      status l = STATUS_FUNDED ->
      transition (ClaimDefault i) (Some l) (merge_status l STATUS_DEFAULTED).

(** Every stored record in status Funded names its lender. *)
Definition funded_has_lender (st : chain) : Prop :=
  forall loan_id l,
    get_loan loan_id st = Some l ->
    status l = STATUS_FUNDED -> is_Some (lender l).

(** The two legs of every stored record are of different asset kinds, and
    the records in status Funded have their principal in the token (and so
    their collateral in STX). *)
Definition legs_differ_funded_in_token (st : chain) : Prop :=
  forall loan_id l,
    get_loan loan_id st = Some l ->
    collateral_is_stx l = negb (principal_is_stx l) /\
    (status l = STATUS_FUNDED -> principal_is_stx l = false).

(** A transaction is signed by a wallet or sent by some other contract; the
    lending contract itself never sends one, since none of its functions
    makes a call as the contract. *)
Definition sent_by_others (ev : event) : Prop :=
  match ev with
  | Call cx _ => tx_sender cx <> contract_self
  | Elsewhere _ _ => True
  end.

(** ** The transition table of the specification

    The preconditions of the five operations as the specification's
    transition table words them, to be compared with what the functions
    check. *)
Definition spec_preconditions (cx : context) (o : operation) (st : chain)
    : bool :=
  match o with
  | CreateLoan i ps pa ra d cs ca =>
      bool_decide (get_loan i st = None) && negb (eqb ps cs)
      && (0 <? pa) && (0 <? ca) && (0 <? d) && (pa <=? ra)
  | CancelLoan i =>
      match get_loan i st with
      | Some l =>
          (status l =? STATUS_OPEN) && bool_decide (tx_sender cx = borrower l)
      | None => false
      end
  | FundLoan i =>
      match get_loan i st with
      | Some l => status l =? STATUS_OPEN
      | None => false
      end
  | Repay i =>
      match get_loan i st with
      | Some l =>
          (status l =? STATUS_FUNDED)
          && bool_decide (tx_sender cx = borrower l)
          && (block_height cx <=? end_block l)
          && match lender l with Some _ => true | None => false end
      | None => false
      end
  | ClaimDefault i =>
      match get_loan i st with
      | Some l =>
          (status l =? STATUS_FUNDED)
          && (end_block l <? block_height cx)
          && bool_decide (lender l = Some (tx_sender cx))
      | None => false
      end
  end.

(** Whether every [transfer-asset] an operation issues goes through, each
    one run on the state the previous one left. *)
Definition transfers_succeed (cx : context) (o : operation) (st : chain)
    : bool :=
  match o with
  | CreateLoan i ps pa ra d cs ca =>
      succeeds (transfer_asset cx cs ca (tx_sender cx) contract_self st)
  | CancelLoan i =>
      match get_loan i st with
      | Some l =>
          succeeds (transfer_asset cx (collateral_is_stx l)
                      (collateral_amount l) contract_self (borrower l) st)
      | None => false
      end
  | FundLoan i =>
      match get_loan i st with
      | Some l =>
          let leg1 := transfer_asset cx (principal_is_stx l)
                        (principal_amount l) (tx_sender cx) contract_self st in
          succeeds leg1
          && succeeds (transfer_asset cx (principal_is_stx l)
                         (principal_amount l) contract_self (borrower l)
                         leg1.2)
      | None => false
      end
  | Repay i =>
      match get_loan i st with
      | Some l =>
          match lender l with
          | Some who =>
              let leg1 := transfer_asset cx (principal_is_stx l)
                            (repay_amount l) (tx_sender cx) who st in
              succeeds leg1
              && succeeds (transfer_asset cx (collateral_is_stx l)
                             (collateral_amount l) contract_self (borrower l)
                             leg1.2)
          | None => false
          end
      | None => false
      end
  | ClaimDefault i =>
      match get_loan i st with
      | Some l =>
          match lender l with
          | Some who =>
              succeeds (transfer_asset cx (collateral_is_stx l)
                          (collateral_amount l) contract_self who st)
          | None => false
          end
      | None => false
      end
  end.

(** The statuses a loan id goes through along a trace, one per event, and
    whether each step of such a list stays put or takes one transition of
    the life cycle. *)
Fixpoint visited (tr : list event) (st : chain) (loan_id : N)
    : list (option N) :=
  status_of loan_id st ::
  match tr with
  | [] => []
  | ev :: tr' => visited tr' (apply_event ev st) loan_id
  end.

Fixpoint stepwise (l : list (option N)) : bool :=
  match l with
  | a :: (b :: _) as rest =>
      (bool_decide (a = b) || edge a b) && stepwise rest
  | _ => true
  end.

(** ** The scenarios of the test suite

    The wallets of [tests/p2p-lending.test.ts], each with the STX the test
    network gives it, and the token balances the tests mint. *)
Definition wallet_1 : principal := Standard 1.
Definition wallet_2 : principal := Standard 2.
Definition wallet_3 : principal := Standard 3.
Definition wallet_4 : principal := Standard 4.
Definition wallet_5 : principal := Standard 5.

Definition genesis : chain :=
  {| loans := ∅;
     stx_balances :=
       {[ wallet_1 := 100000000000000; wallet_2 := 100000000000000;
          wallet_3 := 100000000000000; wallet_4 := 100000000000000;
          wallet_5 := 100000000000000 ]};
     sbtc_balances :=
       {[ wallet_1 := 200; wallet_2 := 1200; wallet_3 := 600;
          wallet_4 := 900 ]} |}.

(** "runs a full happy path": loan 1, principal 1000 sBTC, collateral
    500000 STX, created by [wallet_1] and funded by [wallet_2]. *)
Definition happy_created : chain :=
  (exec (direct wallet_1 2)
     (CreateLoan 1 false 1000 1100 10 true 500000) genesis).2.

Definition happy_funded : chain :=
  (exec (direct wallet_2 3) (FundLoan 1) happy_created).2.

(** "supports a cancel path": loan 2, principal 150000 STX, collateral
    500 sBTC, created by [wallet_3]. *)
Definition cancel_created : chain :=
  (exec (direct wallet_3 2)
     (CreateLoan 2 true 150000 165000 20 false 500) genesis).2.

(** "allows claiming default after the deadline": loan 3, principal
    100000 STX, collateral 500 sBTC, created by [wallet_4]. *)
Definition default_created : chain :=
  (exec (direct wallet_4 2)
     (CreateLoan 3 true 100000 110000 5 false 500) genesis).2.

(** Loan 2 cancelled by its borrower. *)
Definition cancel_done : chain :=
  (exec (direct wallet_3 3) (CancelLoan 2) cancel_created).2.

(** A stored record in status Funded with the principal in STX and the
    collateral in sBTC (loan 2 as [fund-loan] is meant to write it for the
    lender [wallet_2] at step 3), with the balances that go with it: the
    lender has paid out 150000 STX and the contract holds the 500 sBTC. *)
Definition stx_loan_funded : chain :=
  {| loans :=
       {[ 2 := merge_funded (opened wallet_3 true 150000 165000 20 false 500)
                 wallet_2 3 23 ]};
     stx_balances :=
       {[ wallet_2 := 99999999850000; wallet_3 := 100000000150000 ]};
     sbtc_balances := {[ contract_self := 500; wallet_3 := 100 ]} |}.

Definition stx_loan_repaid : chain :=
  (exec (direct wallet_3 10) (Repay 2) stx_loan_funded).2.

(** Loan 5, created and then funded by the same wallet. *)
Definition self_created : chain :=
  (exec (direct wallet_2 2)
     (CreateLoan 5 false 1000 1100 10 true 500000) genesis).2.

Definition self_funded : chain :=
  (exec (direct wallet_2 3) (FundLoan 5) self_created).2.

(** ** Sums over maps, and what the escrow owes *)

(** The sum of [w x] over the values [x] of a map. *)
Definition sum_over {A} (K : Type) `{Countable K} (w : A -> N)
    (m : gmap K A) : N :=
  map_fold (fun _ x acc => w x + acc) 0 m.

(** All the units of one asset kind that exist. *)
Definition total_asset (is_stx : bool) (st : chain) : N :=
  sum_over principal (fun v => v)
    (if is_stx then stx_balances st else sbtc_balances st).

(** A loan whose collateral is still in escrow: Open or Funded. *)
Definition live (l : loan) : bool :=
  (status l =? STATUS_OPEN) || (status l =? STATUS_FUNDED).

(** What one record keeps in escrow in one asset kind. *)
Definition escrow_due (is_stx : bool) (l : loan) : N :=
  if live l && eqb (collateral_is_stx l) is_stx
  then collateral_amount l else 0.

(** What all records together keep in escrow in one asset kind. *)
Definition escrowed (is_stx : bool) (st : chain) : N :=
  sum_over N (escrow_due is_stx) (loans st).

(** The escrow covers the collateral of all live loans. *)
Definition solvent (st : chain) : Prop :=
  forall is_stx, escrowed is_stx st <= asset_balance is_stx st contract_self.

(** Along a trace, nothing but the lending contract's own functions takes
    funds out of the contract's balances: STX leave an account only with
    that account as [tx-sender], and [sbtc-token] moves tokens only with
    the sender as [tx-sender] or [contract-caller]. *)
Fixpoint escrow_untouched (tr : list event) (st : chain) : Prop :=
  match tr with
  | [] => True
  | ev :: tr' =>
      match ev with
      | Call _ _ => True
      | Elsewhere stx sbtc =>
          balance (stx_balances st) contract_self
            <= balance stx contract_self /\
          balance (sbtc_balances st) contract_self
            <= balance sbtc contract_self
      end /\ escrow_untouched tr' (apply_event ev st)
  end.

(** The terms of a loan: everything [create-loan] fixes. *)
Definition same_terms (l l' : loan) : Prop :=
  borrower l' = borrower l /\
  principal_is_stx l' = principal_is_stx l /\
  principal_amount l' = principal_amount l /\
  collateral_is_stx l' = collateral_is_stx l /\
  collateral_amount l' = collateral_amount l /\
  repay_amount l' = repay_amount l.

(** What [fund-loan] fixes. *)
Definition same_funding (l l' : loan) : Prop :=
  lender l' = lender l /\
  start_block l' = start_block l /\
  end_block l' = end_block l.

(** The shape of the records the contract writes. *)
Definition well_formed (l : loan) : Prop :=
  collateral_is_stx l = negb (principal_is_stx l) /\
  0 < principal_amount l /\
  0 < collateral_amount l /\
  principal_amount l <= repay_amount l /\
  status l <= STATUS_CANCELLED /\
  (status l = STATUS_OPEN \/ status l = STATUS_CANCELLED ->
   lender l = None /\ start_block l = 0 /\ 0 < end_block l) /\
  (status l = STATUS_FUNDED \/ status l = STATUS_REPAID \/
   status l = STATUS_DEFAULTED ->
   is_Some (lender l) /\ start_block l < end_block l <= UINT_MAX).

(** ** The rest of [sbtc-token]: its data variables and [mint] *)

Module TokenSupply.

(** [(define-data-var owner principal tx-sender)], the deployer, and
    [(define-data-var total-supply uint u0)]. *)
Record vars : Type := mk_vars {
  owner : principal;
  total_supply : N
}.

(** [(get-total-supply)] *)
Definition get_total_supply (tv : vars) : N := total_supply tv.

(** [(ft-mint? sbtc amount recipient)]: [(err u1)] for a zero amount; the
    chain keeps count of the tokens minted (here the sum of all balances)
    and aborts when that count would leave the [uint] range. *)
Definition ft_mint (amount : N) (recipient : principal) : M bool :=
  fun st =>
    if amount =? 0 then (err 1, st)
    else if UINT_MAX <? total_asset false st + amount
    then (runtime_error, st)
    else (ok true,
          {| loans := loans st;
             stx_balances := stx_balances st;
             sbtc_balances :=
               <[recipient := balance (sbtc_balances st) recipient + amount]>
                 (sbtc_balances st) |}).

(** A call of [(define-public (mint amount recipient))], with what it
    commits: the data variables and the chain state are the old ones
    unless the function returns [(ok true)]. *)
Definition mint (cx : context) (amount : N) (recipient : principal)
    (tv : vars) (st : chain) : response bool * (vars * chain) :=
  if negb (bool_decide (tx_sender cx = owner tv))
  then (err Token.ERR_NOT_OWNER, (tv, st))
  else
    match ft_mint amount recipient st with
    | (ok _, st1) =>
        if total_supply tv + amount <=? UINT_MAX
        then (ok true,
              ({| owner := owner tv;
                  total_supply := total_supply tv + amount |}, st1))
        else (runtime_error, (tv, st))
    | (err e, _) => (err e, (tv, st))
    | (runtime_error, _) => (runtime_error, (tv, st))
    end.

(** What can happen to the token: a mint, a transfer called directly, or
    a call of the lending contract (which calls [transfer]). *)
Inductive token_event : Type :=
  | Mint (cx : context) (amount : N) (recipient : principal)
  | Transfer (cx : context) (amount : N) (sender recipient : principal)
  | Lending (cx : context) (o : operation).

Definition apply_token_event (ev : token_event) (s : vars * chain)
    : vars * chain :=
  match ev with
  | Mint cx amount recipient => (mint cx amount recipient s.1 s.2).2
  | Transfer cx amount sender recipient =>
      (s.1, (public_call (Token.transfer cx amount sender recipient) s.2).2)
  | Lending cx o => (s.1, (exec cx o s.2).2)
  end.

Fixpoint run_token (tr : list token_event) (s : vars * chain)
    : vars * chain :=
  match tr with
  | [] => s
  | ev :: tr' => run_token tr' (apply_token_event ev s)
  end.

End TokenSupply.

#[global] Arguments transfer_failure : simpl never.

(** ** Basic facts about computations and transfers *)

Lemma public_call_ok {A} (m : M A) st a st' :
  public_call m st = (ok a, st') <-> m st = (ok a, st').
Proof.
  unfold public_call. destruct (m st) as [[ | | ] s]; split; congruence.
Qed.

Lemma public_call_not_ok {A} (m : M A) st r st' :
  public_call m st = (r, st') -> (forall a, r <> ok a) -> st' = st.
Proof.
  unfold public_call. destruct (m st) as [[ | | ] s]; intros [= <- <-] H;
    [exfalso; eapply H|..]; reflexivity.
Qed.

Lemma public_call_fst {A} (m : M A) st : (public_call m st).1 = (m st).1.
Proof. unfold public_call. destruct (m st) as [[ | | ] s]; reflexivity. Qed.

Lemma transfer_asset_spec cx is_stx amount sender recipient st :
  transfer_asset cx is_stx amount sender recipient st =
  match transfer_failure cx is_stx amount sender recipient st with
  | Some e => (err e, st)
  | None => (ok true, moved is_stx amount sender recipient st)
  end.
Proof.
  unfold transfer_asset, transfer_failure, moved, asset_balance.
  destruct is_stx.
  - unfold stx_transfer.
    repeat (case_match; try reflexivity).
  - unfold public_call, Token.transfer, called_from_lending, bind, asserts,
      ft_transfer, ret, throw; simpl.
    repeat (case_match; simplify_eq; simpl in *; try reflexivity; try congruence).
Qed.

Ltac unfold_ops :=
  unfold exec, body, create_loan, cancel_loan, fund_loan, repay, claim_default,
    bind, asserts, unwrap, uint_add, ret, throw, abort, map_set_loans,
    with_loan, opened in *.

Ltac crunch :=
  repeat (simpl in *;
          first [ progress rewrite ?transfer_asset_spec in *
                | case_match; simplify_eq ]).

(** ** The five public functions in closed form *)

Lemma create_loan_spec cx loan_id ps pa ra d cs ca st :
  create_loan cx loan_id ps pa ra d cs ca st =
  if negb (bool_decide (get_loan loan_id st = None))
  then (err ERR_LOAN_EXISTS, st)
  else if eqb ps cs then (err ERR_SAME_ASSET, st)
  else if negb (0 <? pa) then (err ERR_BAD_AMOUNT, st)
  else if negb (0 <? ca) then (err ERR_BAD_AMOUNT, st)
  else if negb (0 <? d) then (err ERR_BAD_AMOUNT, st)
  else if negb (pa <=? ra) then (err ERR_BAD_REPAY, st)
  else match transfer_failure cx cs ca (tx_sender cx) contract_self st with
       | Some e => (err e, st)
       | None =>
           (ok true,
            with_loan loan_id (opened (tx_sender cx) ps pa ra d cs ca)
              (moved cs ca (tx_sender cx) contract_self st))
       end.
Proof. unfold_ops. crunch; reflexivity. Qed.

Lemma cancel_loan_spec cx loan_id st :
  cancel_loan cx loan_id st =
  match get_loan loan_id st with
  | None => (err ERR_LOAN_NOT_FOUND, st)
  | Some l =>
      if negb (status l =? STATUS_OPEN) then (err ERR_NOT_OPEN, st)
      else if negb (bool_decide (tx_sender cx = borrower l))
      then (err ERR_NOT_BORROWER, st)
      else match transfer_failure cx (collateral_is_stx l)
                   (collateral_amount l) contract_self (borrower l) st with
           | Some e => (err e, st)
           | None =>
               (ok true,
                with_loan loan_id (merge_status l STATUS_CANCELLED)
                  (moved (collateral_is_stx l) (collateral_amount l)
                     contract_self (borrower l) st))
           end
  end.
Proof. unfold_ops. crunch; reflexivity. Qed.

Lemma fund_loan_spec cx loan_id st :
  fund_loan cx loan_id st =
  match get_loan loan_id st with
  | None => (err ERR_LOAN_NOT_FOUND, st)
  | Some l =>
      if negb (status l =? STATUS_OPEN) then (err ERR_NOT_OPEN, st)
      else match transfer_failure cx (principal_is_stx l)
                   (principal_amount l) (tx_sender cx) contract_self st with
           | Some e => (err e, st)
           | None =>
               let st1 := moved (principal_is_stx l) (principal_amount l)
                            (tx_sender cx) contract_self st in
               match transfer_failure cx (principal_is_stx l)
                       (principal_amount l) contract_self (borrower l) st1 with
               | Some e => (err e, st1)
               | None =>
                   let st2 := moved (principal_is_stx l) (principal_amount l)
                                contract_self (borrower l) st1 in
                   if block_height cx + end_block l <=? UINT_MAX
                   then (ok true,
                         with_loan loan_id
                           (merge_funded l (tx_sender cx) (block_height cx)
                              (block_height cx + end_block l)) st2)
                   else (runtime_error, st2)
               end
           end
  end.
Proof. unfold_ops. crunch; reflexivity. Qed.

Lemma repay_spec cx loan_id st :
  repay cx loan_id st =
  match get_loan loan_id st with
  | None => (err ERR_LOAN_NOT_FOUND, st)
  | Some l =>
      if negb (status l =? STATUS_FUNDED) then (err ERR_NOT_FUNDED, st)
      else if negb (bool_decide (tx_sender cx = borrower l))
      then (err ERR_NOT_BORROWER, st)
      else if negb (repay_deadline_ok (block_height cx) (end_block l))
      then (err ERR_PAST_DUE, st)
      else match lender l with
           | None => (err ERR_NO_LENDER, st)
           | Some lender0 =>
               match transfer_failure cx (principal_is_stx l)
                       (repay_amount l) (tx_sender cx) lender0 st with
               | Some e => (err e, st)
               | None =>
                   let st1 := moved (principal_is_stx l) (repay_amount l)
                                (tx_sender cx) lender0 st in
                   match transfer_failure cx (collateral_is_stx l)
                           (collateral_amount l) contract_self (borrower l)
                           st1 with
                   | Some e => (err e, st1)
                   | None =>
                       (ok true,
                        with_loan loan_id (merge_status l STATUS_REPAID)
                          (moved (collateral_is_stx l) (collateral_amount l)
                             contract_self (borrower l) st1))
                   end
               end
           end
  end.
Proof. unfold_ops. crunch; reflexivity. Qed.

Lemma claim_default_spec cx loan_id st :
  claim_default cx loan_id st =
  match get_loan loan_id st with
  | None => (err ERR_LOAN_NOT_FOUND, st)
  | Some l =>
      if negb (status l =? STATUS_FUNDED) then (err ERR_NOT_FUNDED, st)
      else if negb (default_deadline_ok (block_height cx) (end_block l))
      then (err ERR_NOT_PAST_DUE, st)
      else match lender l with
           | None => (err ERR_NO_LENDER, st)
           | Some lender0 =>
               if negb (bool_decide (tx_sender cx = lender0))
               then (err ERR_NOT_LENDER, st)
               else match transfer_failure cx (collateral_is_stx l)
                            (collateral_amount l) contract_self lender0 st with
                    | Some e => (err e, st)
                    | None =>
                        (ok true,
                         with_loan loan_id (merge_status l STATUS_DEFAULTED)
                           (moved (collateral_is_stx l) (collateral_amount l)
                              contract_self lender0 st))
                    end
           end
  end.
Proof. unfold_ops. crunch; reflexivity. Qed.

(** ** Releasing escrowed STX

    [transfer-asset] is evaluated with the caller as [tx-sender], also when
    its [sender] argument is the contract: [contract-self] only computes the
    contract's principal.  [stx-transfer?] then refuses the transfer. *)

Lemma stx_from_escrow_failure cx amount recipient st :
  tx_sender cx <> contract_self ->
  is_Some (transfer_failure cx true amount contract_self recipient st).
Proof.
  intros Hne. unfold transfer_failure.
  destruct (amount =? 0); [eauto|].
  destruct (bool_decide (contract_self = recipient)); [eauto|].
  rewrite bool_decide_eq_false_2 by congruence. simpl. eauto.
Qed.

Lemma stx_from_escrow_refused cx amount recipient st :
  tx_sender cx <> contract_self ->
  exists e, transfer_asset cx true amount contract_self recipient st = (err e, st).
Proof.
  intros Hne. rewrite transfer_asset_spec.
  destruct (stx_from_escrow_failure cx amount recipient st Hne) as [e ->].
  eauto.
Qed.

(** The token leg out of escrow goes through: the token contract accepts
    the lending contract as [contract-caller]. *)
Lemma token_from_escrow_failure cx amount recipient st :
  amount <> 0 -> recipient <> contract_self ->
  amount <= asset_balance false st contract_self ->
  transfer_failure cx false amount contract_self recipient st = None.
Proof.
  intros Ha Hr Hb. unfold transfer_failure.
  apply N.eqb_neq in Ha. apply N.ltb_ge in Hb.
  rewrite (bool_decide_eq_true_2 (contract_self = contract_self)) by reflexivity.
  rewrite orb_true_r, Ha, Hb.
  rewrite bool_decide_eq_false_2 by congruence.
  reflexivity.
Qed.

(** A transfer by the caller of the caller's own funds goes through in
    either asset kind. *)
Lemma own_funds_failure cx is_stx amount recipient st :
  amount <> 0 -> recipient <> tx_sender cx ->
  amount <= asset_balance is_stx st (tx_sender cx) ->
  transfer_failure cx is_stx amount (tx_sender cx) recipient st = None.
Proof.
  intros Ha Hr Hb. unfold transfer_failure.
  apply N.eqb_neq in Ha.
  rewrite (bool_decide_eq_true_2 (tx_sender cx = tx_sender cx)) by reflexivity.
  rewrite (bool_decide_eq_false_2 (tx_sender cx = recipient)) by congruence.
  rewrite Ha. destruct is_stx; apply N.ltb_ge in Hb; rewrite Hb; reflexivity.
Qed.

(** What a move does to the balances of the other asset kind and of its
    own. *)
Lemma moved_kind_other k k' amount sender recipient st who :
  k <> k' ->
  asset_balance k (moved k' amount sender recipient st) who =
  asset_balance k st who.
Proof. destruct k, k'; intros H; try contradiction; reflexivity. Qed.

Lemma moved_recipient is_stx amount sender recipient st :
  sender <> recipient ->
  asset_balance is_stx (moved is_stx amount sender recipient st) recipient =
  asset_balance is_stx st recipient + amount.
Proof.
  intros Hne. unfold asset_balance, moved, move, balance.
  destruct is_stx; simpl; rewrite lookup_insert_eq; simpl;
    rewrite lookup_insert_ne by done; reflexivity.
Qed.

Lemma moved_sender is_stx amount sender recipient st :
  sender <> recipient ->
  asset_balance is_stx (moved is_stx amount sender recipient st) sender =
  asset_balance is_stx st sender - amount.
Proof.
  intros Hne. unfold asset_balance, moved, move, balance.
  destruct is_stx; simpl; rewrite lookup_insert_ne by done;
    rewrite lookup_insert_eq; reflexivity.
Qed.

Lemma moved_bystander is_stx amount sender recipient st who :
  who <> sender -> who <> recipient ->
  asset_balance is_stx (moved is_stx amount sender recipient st) who =
  asset_balance is_stx st who.
Proof.
  intros Hs Hr. unfold asset_balance, moved, move, balance.
  destruct is_stx; simpl; rewrite !lookup_insert_ne by done; reflexivity.
Qed.

Lemma moved_loans is_stx amount sender recipient st :
  loans (moved is_stx amount sender recipient st) = loans st.
Proof. destruct is_stx; reflexivity. Qed.

(** Whoever calls (other than the contract itself, which never signs a
    transaction), an operation that has to release STX from the escrow
    fails: [cancel-loan], [repay] and [claim-default] on a loan with STX
    collateral, [fund-loan] on a loan with an STX principal. *)
Lemma stx_escrow_release_fails cx o st l :
  get_loan (operation_id o) st = Some l ->
  tx_sender cx <> contract_self ->
  match o with
  | CreateLoan _ _ _ _ _ _ _ => False
  | FundLoan _ => principal_is_stx l = true
  | CancelLoan _ | Repay _ | ClaimDefault _ => collateral_is_stx l = true
  end ->
  succeeds (exec cx o st) = false.
Proof.
  intros Hl Hne Hk. unfold succeeds, exec. rewrite public_call_fst.
  destruct o; simpl in *; [contradiction|..];
    rewrite ?cancel_loan_spec, ?fund_loan_spec, ?repay_spec,
      ?claim_default_spec, Hl, Hk;
    repeat (cbv zeta; case_match; simplify_eq; simpl in *; try reflexivity);
    match goal with
    | H : transfer_failure ?cx true ?a contract_self ?r ?s = None |- _ =>
        destruct (stx_from_escrow_failure cx a r s Hne) as [e He];
        congruence
    end.
Qed.

(** C1 (the code at the failing input): in the "happy path" scenario, loan 1
    is Funded, its lender is set, the borrower holds more than the 1100 sBTC
    due and the deadline has not passed, and yet [repay] called by the
    borrower returns [(err u4)] and changes nothing: the STX collateral
    cannot leave the escrow. *)
Theorem repay_happy_path_refused :
  status_of 1 happy_funded = Some STATUS_FUNDED /\
  (lender <$> get_loan 1 happy_funded) = Some (Some wallet_2) /\
  (borrower <$> get_loan 1 happy_funded) = Some wallet_1 /\
  (end_block <$> get_loan 1 happy_funded) = Some 13 /\
  1100 <= asset_balance false happy_funded wallet_1 /\
  500000 <= asset_balance true happy_funded contract_self /\
  exec (direct wallet_1 4) (Repay 1) happy_funded = (err 4, happy_funded).
Proof. vm_compute. repeat split; congruence. Qed.

(** C2 (the code at the failing input): in the "claiming default" scenario,
    loan 3 is Open with its principal in STX and [wallet_5] holds far more
    than the 100000 STX to lend, and yet [fund-loan] returns [(err u4)] and
    changes nothing: the first leg reaches the escrow, the second leg, out
    of the escrow, is refused, and the call is rolled back. *)
Theorem fund_stx_principal_refused :
  status_of 3 default_created = Some STATUS_OPEN /\
  (principal_is_stx <$> get_loan 3 default_created) = Some true /\
  100000 <= asset_balance true default_created wallet_5 /\
  transfer_asset (direct wallet_5 3) true 100000 wallet_5 contract_self
    default_created =
    (ok true, moved true 100000 wallet_5 contract_self default_created) /\
  (fund_loan (direct wallet_5 3) 3 default_created).1 = err 4 /\
  exec (direct wallet_5 3) (FundLoan 3) default_created =
    (err 4, default_created).
Proof. vm_compute. repeat split; congruence. Qed.

(** C3 (the code at the failing input): loan 1 of the "happy path" scenario
    is Open with its collateral in STX, and [cancel-loan] called by its
    borrower returns [(err u4)]: the loan stays Open and the 500000 STX stay
    in the escrow. *)
Theorem cancel_stx_collateral_refused :
  status_of 1 happy_created = Some STATUS_OPEN /\
  (borrower <$> get_loan 1 happy_created) = Some wallet_1 /\
  (collateral_is_stx <$> get_loan 1 happy_created) = Some true /\
  asset_balance true happy_created contract_self = 500000 /\
  exec (direct wallet_1 3) (CancelLoan 1) happy_created =
    (err 4, happy_created).
Proof. vm_compute. repeat split; congruence. Qed.

(** C10 (the code at the failing input): loan 2 of the "cancel path"
    scenario is Open with its principal in STX and its borrower [wallet_3]
    holds far more than 150000 STX, and yet the borrower's own [fund-loan]
    returns [(err u4)]. *)
Theorem self_fund_stx_principal_refused :
  status_of 2 cancel_created = Some STATUS_OPEN /\
  (borrower <$> get_loan 2 cancel_created) = Some wallet_3 /\
  (principal_is_stx <$> get_loan 2 cancel_created) = Some true /\
  150000 <= asset_balance true cancel_created wallet_3 /\
  exec (direct wallet_3 3) (FundLoan 2) cancel_created =
    (err 4, cancel_created).
Proof. vm_compute. repeat split; congruence. Qed.

(** The same three calls on the token side of the escrow go through. *)

Lemma cancel_token_collateral cx loan_id l st :
  get_loan loan_id st = Some l ->
  status l = STATUS_OPEN ->
  tx_sender cx = borrower l ->
  collateral_is_stx l = false ->
  collateral_amount l <> 0 ->
  borrower l <> contract_self ->
  collateral_amount l <= asset_balance false st contract_self ->
  exec cx (CancelLoan loan_id) st =
    (ok true,
     with_loan loan_id (merge_status l STATUS_CANCELLED)
       (moved false (collateral_amount l) contract_self (borrower l) st)).
Proof.
  intros Hl Hs Hb Hk Ha Hne Hbal.
  unfold exec, body. apply public_call_ok.
  rewrite cancel_loan_spec, Hl, Hs, Hb, Hk.
  rewrite bool_decide_eq_true_2 by reflexivity.
  rewrite token_from_escrow_failure by assumption.
  reflexivity.
Qed.

Lemma fund_token_principal cx loan_id l st :
  get_loan loan_id st = Some l ->
  status l = STATUS_OPEN ->
  principal_is_stx l = false ->
  principal_amount l <> 0 ->
  tx_sender cx <> contract_self ->
  borrower l <> contract_self ->
  principal_amount l <= asset_balance false st (tx_sender cx) ->
  block_height cx + end_block l <= UINT_MAX ->
  exec cx (FundLoan loan_id) st =
    (ok true,
     with_loan loan_id
       (merge_funded l (tx_sender cx) (block_height cx)
          (block_height cx + end_block l))
       (moved false (principal_amount l) contract_self (borrower l)
          (moved false (principal_amount l) (tx_sender cx) contract_self st))).
Proof.
  intros Hl Hs Hk Ha Hc Hne Hbal Hov.
  unfold exec, body. apply public_call_ok.
  rewrite fund_loan_spec, Hl, Hs, Hk.
  rewrite own_funds_failure by (assumption || congruence).
  cbv zeta.
  rewrite token_from_escrow_failure; try assumption.
  - apply N.leb_le in Hov. rewrite Hov. reflexivity.
  - rewrite moved_recipient by assumption. lia.
Qed.

Lemma self_fund_token_principal who height loan_id l st :
  get_loan loan_id st = Some l ->
  status l = STATUS_OPEN ->
  borrower l = who ->
  principal_is_stx l = false ->
  principal_amount l <> 0 ->
  who <> contract_self ->
  principal_amount l <= asset_balance false st who ->
  height + end_block l <= UINT_MAX ->
  exists st',
    exec (direct who height) (FundLoan loan_id) st = (ok true, st') /\
    (borrower <$> get_loan loan_id st') = Some who /\
    (lender <$> get_loan loan_id st') = Some (Some who) /\
    status_of loan_id st' = Some STATUS_FUNDED.
Proof.
  intros Hl Hs Hb Hk Ha Hne Hbal Hov. subst who.
  eexists. split.
  - apply (fund_token_principal (direct (borrower l) height) loan_id l st);
      assumption.
  - unfold status_of, get_loan, with_loan. simpl.
    rewrite lookup_insert_eq. repeat split.
Qed.

(** With the collateral in the token and the principal in STX, [repay]
    goes through. *)
Lemma repay_token_collateral cx loan_id l who st :
  get_loan loan_id st = Some l ->
  status l = STATUS_FUNDED ->
  tx_sender cx = borrower l ->
  block_height cx <= end_block l ->
  lender l = Some who ->
  who <> borrower l ->
  borrower l <> contract_self ->
  principal_is_stx l = true ->
  collateral_is_stx l = false ->
  repay_amount l <> 0 ->
  collateral_amount l <> 0 ->
  repay_amount l <= asset_balance true st (borrower l) ->
  collateral_amount l <= asset_balance false st contract_self ->
  exec cx (Repay loan_id) st =
    (ok true,
     with_loan loan_id (merge_status l STATUS_REPAID)
       (moved false (collateral_amount l) contract_self (borrower l)
          (moved true (repay_amount l) (borrower l) who st))).
Proof.
  intros Hl Hs Hb Hd Hlen Hw Hne Hp Hc Hra Hca Hbal Hesc.
  unfold exec, body. apply public_call_ok.
  rewrite repay_spec, Hl, Hs, Hb, Hlen, Hp, Hc.
  rewrite bool_decide_eq_true_2 by reflexivity.
  unfold repay_deadline_ok. apply N.leb_le in Hd. rewrite Hd. simpl.
  rewrite <- Hb.
  rewrite own_funds_failure by (rewrite ?Hb; assumption).
  cbv zeta.
  rewrite token_from_escrow_failure; rewrite ?Hb; try assumption.
  reflexivity.
Qed.

(** [fund-loan] adds the stored duration to the current block height; the
    sum of two [uint] can overflow, and then the call aborts: a loan created
    with the largest duration cannot be funded. *)
Lemma fund_deadline_overflow :
  let created :=
    (exec (direct wallet_1 2)
       (CreateLoan 9 false 1000 1100 UINT_MAX true 500000) genesis).2 in
  status_of 9 created = Some STATUS_OPEN /\
  exec (direct wallet_2 3) (FundLoan 9) created = (runtime_error, created).
Proof. vm_compute. split; reflexivity. Qed.

(** ** All-or-nothing commit *)

(** The codes with which a transfer fails are not codes of the lending
    contract. *)
Lemma transfer_failure_code cx is_stx amount sender recipient st e :
  transfer_failure cx is_stx amount sender recipient st = Some e ->
  e = 1 \/ e = 2 \/ e = 3 \/ e = 4 \/ e = Token.ERR_UNAUTHORIZED.
Proof.
  unfold transfer_failure. intros H.
  repeat case_match; simplify_eq; auto.
Qed.

(** Every check of a public function is made before any asset moves: when
    the function stops with one of the contract's own error codes, nothing
    has been written yet, rollback or not. *)
Lemma checks_precede_transfers cx o st e st1 :
  body cx o st = (err e, st1) ->
  ERR_LOAN_EXISTS <= e <= ERR_BAD_REPAY ->
  st1 = st.
Proof.
  intros H He. destruct o; simpl in H;
    rewrite ?create_loan_spec, ?cancel_loan_spec, ?fund_loan_spec,
      ?repay_spec, ?claim_default_spec in H;
    repeat (cbv zeta in *; case_match; simplify_eq; try reflexivity);
    match goal with
    | Hf : transfer_failure _ _ _ _ _ _ = Some _ |- _ =>
        apply transfer_failure_code in Hf;
        unfold ERR_LOAN_EXISTS, ERR_BAD_REPAY, Token.ERR_UNAUTHORIZED in *; lia
    end.
Qed.

(** Without the rollback the second leg of [fund-loan] would fail with the
    first leg already in the escrow. *)
Lemma fund_second_leg_partial :
  fund_loan (direct wallet_5 3) 3 default_created =
    (err 4, moved true 100000 wallet_5 contract_self default_created) /\
  asset_balance true
    (moved true 100000 wallet_5 contract_self default_created) contract_self
    = 100000 /\
  asset_balance true default_created contract_self = 0.
Proof. vm_compute. repeat split. Qed.

(** A call aborts (instead of returning a response) only in [fund-loan],
    after every check and both transfers went through, when the deadline
    does not fit in a [uint]. *)
Lemma runtime_error_only_on_overflow cx o st :
  (exec cx o st).1 = runtime_error ->
  exists loan_id l,
    o = FundLoan loan_id /\ get_loan loan_id st = Some l /\
    UINT_MAX < block_height cx + end_block l.
Proof.
  unfold exec. rewrite public_call_fst.
  destruct o; simpl;
    rewrite ?create_loan_spec, ?cancel_loan_spec, ?fund_loan_spec,
      ?repay_spec, ?claim_default_spec;
    repeat (cbv zeta; case_match; simplify_eq; simpl; try discriminate).
  intros _. eexists _, _. split; [reflexivity|]. split; [eassumption|].
  match goal with H : (_ <=? _) = false |- _ => apply N.leb_gt in H; exact H end.
Qed.

(** Whatever error [e] a function body stops with and whatever state [st1]
    it had reached, the call returns [(err e)] and the old state; a call
    that does not return [(ok _)] never changes the state; and the response
    is always [(ok true)] or a typed error, except for the arithmetic
    overflow at the very end of [fund-loan]. *)
Lemma rollback_on_failure cx o st :
  (forall e st1, body cx o st = (err e, st1) -> exec cx o st = (err e, st)) /\
  (forall r st', exec cx o st = (r, st') ->
                 succeeds (r, st') = false -> st' = st) /\
  ((exec cx o st).1 = ok true \/
   (exists e, exec cx o st = (err e, st)) \/
   (exists loan_id l,
      o = FundLoan loan_id /\ get_loan loan_id st = Some l /\
      UINT_MAX < block_height cx + end_block l /\
      exec cx o st = (runtime_error, st))).
Proof.
  assert (forall r st', exec cx o st = (r, st') ->
                        succeeds (r, st') = false -> st' = st) as Hkeep.
  { intros r st' H Hs. eapply public_call_not_ok; [exact H|].
    intros a ->. discriminate Hs. }
  split; [|split; [exact Hkeep|]].
  - intros e st1 H. unfold exec, public_call. rewrite H. reflexivity.
  - destruct (exec cx o st) as [r st'] eqn:He.
    destruct r as [b|e|].
    + left. simpl. f_equal.
      unfold exec in He. rewrite public_call_ok in He.
      destruct o; simpl in He;
        rewrite ?create_loan_spec, ?cancel_loan_spec, ?fund_loan_spec,
          ?repay_spec, ?claim_default_spec in He;
        repeat (cbv zeta in *; case_match; simplify_eq); reflexivity.
    + right; left. exists e. rewrite (Hkeep _ _ eq_refl eq_refl). reflexivity.
    + right; right.
      destruct (runtime_error_only_on_overflow cx o st) as (i & l & ? & ? & ?);
        [rewrite He; reflexivity|].
      exists i, l. rewrite (Hkeep _ _ eq_refl eq_refl). auto.
Qed.

Lemma transfer_asset_succeeds cx k amount sender recipient st :
  succeeds (transfer_asset cx k amount sender recipient st)
  = match transfer_failure cx k amount sender recipient st with
    | None => true
    | Some _ => false
    end.
Proof.
  rewrite transfer_asset_spec.
  destruct (transfer_failure cx k amount sender recipient st); reflexivity.
Qed.

Lemma transfer_asset_state cx k amount sender recipient st :
  (transfer_asset cx k amount sender recipient st).2
  = match transfer_failure cx k amount sender recipient st with
    | None => moved k amount sender recipient st
    | Some _ => st
    end.
Proof.
  rewrite transfer_asset_spec.
  destruct (transfer_failure cx k amount sender recipient st); reflexivity.
Qed.

Lemma exec_refines_table cx o st :
  if spec_preconditions cx o st then
    if transfers_succeed cx o st then
      (exec cx o st).1 = ok true \/
      (exists loan_id l,
         o = FundLoan loan_id /\ get_loan loan_id st = Some l /\
         UINT_MAX < block_height cx + end_block l /\
         exec cx o st = (runtime_error, st))
    else exists e, exec cx o st = (err e, st)
  else exists e, body cx o st = (err e, st) /\ exec cx o st = (err e, st).
Proof.
  unfold exec, public_call, spec_preconditions, transfers_succeed.
  destruct o; cbn [body];
    rewrite ?create_loan_spec, ?cancel_loan_spec, ?fund_loan_spec,
      ?repay_spec, ?claim_default_spec;
    unfold repay_deadline_ok, default_deadline_ok;
    cbv zeta; rewrite ?transfer_asset_succeeds.
  all: repeat (rewrite ?transfer_asset_succeeds, ?transfer_asset_state;
               case_match; simplify_eq; cbn [fst snd andb negb orb] in *;
               try discriminate).
  all: try (eexists; split; reflexivity).
  all: try (eexists; reflexivity).
  all: try (left; reflexivity).
  all: try (right; eexists _, _; repeat split; try eassumption;
            match goal with H : (_ <=? _) = false |- _ =>
              apply N.leb_gt in H; exact H end).
  all: exfalso;
    repeat match goal with
      | H : _ && _ = true |- _ => apply andb_true_iff in H as [? ?]
      | H : _ && _ = false |- _ => apply andb_false_iff in H as [?|?]
      | H : negb _ = true |- _ => apply negb_true_iff in H
      | H : negb _ = false |- _ => apply negb_false_iff in H
      end;
    repeat case_bool_decide; simplify_eq; try congruence.
  all: repeat match goal with
         | H : succeeds (transfer_asset _ _ _ _ _ _) = _ |- _ =>
             rewrite transfer_asset_succeeds in H
         end;
       repeat match goal with
         | H : transfer_failure _ _ _ _ _ _ = _ |- _ => rewrite H in *
         end; discriminate.
Qed.

(** C4: each of the five write operations refines the specification's
    transition table, all or nothing.  When one of the table's
    preconditions does not hold, the function stops with a typed error
    before writing anything, and the call returns that error with the loan
    map and all balances exactly as they were.  When the preconditions hold
    and one of the transfers is refused, the call returns a typed error and
    the state is again exactly as before, including a first transfer that
    had already gone through (the first leg of [fund-loan]).  A call
    succeeds only if all preconditions hold and all transfers go through.
    In general, whatever error [e] the function body stops with and
    whatever state [st1] it had reached, the call returns [(err e)] and the
    old state; a call that does not return [(ok _)] never changes the
    state; and the response is always [(ok true)] or a typed error, except
    for the arithmetic overflow at the very end of [fund-loan]. *)
Theorem failed_call_changes_nothing cx o st :
  (spec_preconditions cx o st = false ->
   exists e, body cx o st = (err e, st) /\ exec cx o st = (err e, st)) /\
  (spec_preconditions cx o st = true ->
   transfers_succeed cx o st = false ->
   exists e, exec cx o st = (err e, st)) /\
  (succeeds (exec cx o st) = true ->
   spec_preconditions cx o st = true /\ transfers_succeed cx o st = true) /\
  (forall e st1, body cx o st = (err e, st1) -> exec cx o st = (err e, st)) /\
  (forall r st', exec cx o st = (r, st') ->
                 succeeds (r, st') = false -> st' = st) /\
  ((exec cx o st).1 = ok true \/
   (exists e, exec cx o st = (err e, st)) \/
   (exists loan_id l,
      o = FundLoan loan_id /\ get_loan loan_id st = Some l /\
      UINT_MAX < block_height cx + end_block l /\
      exec cx o st = (runtime_error, st))).
Proof.
  pose proof (exec_refines_table cx o st) as Href.
  split; [|split; [|split; [|apply rollback_on_failure]]].
  - intros Hp. rewrite Hp in Href. exact Href.
  - intros Hp Ht. rewrite Hp, Ht in Href. exact Href.
  - intros Hok. unfold succeeds in Hok.
    destruct (spec_preconditions cx o st).
    + split; [reflexivity|].
      destruct (transfers_succeed cx o st); [reflexivity|].
      destruct Href as [e He]. rewrite He in Hok. discriminate.
    + destruct Href as [e [_ He]]. rewrite He in Hok. discriminate.
Qed.

Lemma failed_call_changes_nothing_witness :
  (exists e, body (direct wallet_2 3) (CancelLoan 1) happy_created
             = (err e, happy_created) /\
             exec (direct wallet_2 3) (CancelLoan 1) happy_created
             = (err e, happy_created)) /\
  (exists e, exec (direct wallet_5 3) (FundLoan 3) default_created
             = (err e, default_created)) /\
  spec_preconditions (direct wallet_3 3) (CancelLoan 2) cancel_created = true /\
  exec (direct wallet_5 3) (FundLoan 3) default_created =
    (err 4, default_created).
Proof.
  split; [|split; [|split]].
  - apply (proj1 (failed_call_changes_nothing (direct wallet_2 3)
                    (CancelLoan 1) happy_created)).
    vm_compute. reflexivity.
  - apply (proj1 (proj2 (failed_call_changes_nothing (direct wallet_5 3)
                           (FundLoan 3) default_created)));
      vm_compute; reflexivity.
  - apply (proj1 (proj2 (proj2 (failed_call_changes_nothing
                                  (direct wallet_3 3) (CancelLoan 2)
                                  cancel_created)))).
    vm_compute. reflexivity.
  - apply (proj1 (proj2 (proj2 (proj2
             (failed_call_changes_nothing
                (direct wallet_5 3) (FundLoan 3) default_created)))) 4
             (moved true 100000 wallet_5 contract_self default_created)).
    vm_compute. reflexivity.
Defined.

(** ** The deadline *)

Lemma repay_past_due_iff cx loan_id st l :
  get_loan loan_id st = Some l ->
  status l = STATUS_FUNDED ->
  tx_sender cx = borrower l ->
  (exec cx (Repay loan_id) st).1 = err ERR_PAST_DUE <->
  repay_deadline_ok (block_height cx) (end_block l) = false.
Proof.
  intros Hl Hs Hb. unfold exec, body. rewrite public_call_fst, repay_spec.
  rewrite Hl, Hs, Hb. rewrite bool_decide_eq_true_2 by reflexivity. simpl.
  destruct (repay_deadline_ok (block_height cx) (end_block l)); simpl;
    [|tauto].
  split; [|discriminate].
  repeat (cbv zeta; case_match); simpl; intros [= He]; try discriminate;
    match goal with
    | Hf : transfer_failure _ _ _ _ _ _ = Some _ |- _ =>
        apply transfer_failure_code in Hf;
        unfold ERR_PAST_DUE, Token.ERR_UNAUTHORIZED in *; lia
    end.
Qed.

Lemma claim_not_past_due_iff cx loan_id st l :
  get_loan loan_id st = Some l ->
  status l = STATUS_FUNDED ->
  (exec cx (ClaimDefault loan_id) st).1 = err ERR_NOT_PAST_DUE <->
  default_deadline_ok (block_height cx) (end_block l) = false.
Proof.
  intros Hl Hs. unfold exec, body. rewrite public_call_fst, claim_default_spec.
  rewrite Hl, Hs. simpl.
  destruct (default_deadline_ok (block_height cx) (end_block l)); simpl;
    [|tauto].
  split; [|discriminate].
  repeat (cbv zeta; case_match); simpl; intros [= He]; try discriminate;
    match goal with
    | Hf : transfer_failure _ _ _ _ _ _ = Some _ |- _ =>
        apply transfer_failure_code in Hf;
        unfold ERR_NOT_PAST_DUE, Token.ERR_UNAUTHORIZED in *; lia
    end.
Qed.

Lemma repay_needs_deadline cx loan_id st :
  succeeds (exec cx (Repay loan_id) st) = true ->
  exists l, get_loan loan_id st = Some l /\
            repay_deadline_ok (block_height cx) (end_block l) = true.
Proof.
  unfold succeeds, exec, body. rewrite public_call_fst, repay_spec.
  destruct (get_loan loan_id st) as [l|]; [|discriminate].
  intros H. exists l. split; [reflexivity|].
  destruct (repay_deadline_ok (block_height cx) (end_block l)); [reflexivity|].
  repeat (cbv zeta in *; case_match; simplify_eq); simpl in *; discriminate.
Qed.

Lemma claim_needs_deadline cx loan_id st :
  succeeds (exec cx (ClaimDefault loan_id) st) = true ->
  exists l, get_loan loan_id st = Some l /\
            default_deadline_ok (block_height cx) (end_block l) = true.
Proof.
  unfold succeeds, exec, body. rewrite public_call_fst, claim_default_spec.
  destruct (get_loan loan_id st) as [l|]; [|discriminate].
  intros H. exists l. split; [reflexivity|].
  destruct (default_deadline_ok (block_height cx) (end_block l));
    [reflexivity|].
  repeat (cbv zeta in *; case_match; simplify_eq); simpl in *; discriminate.
Qed.

(** At every ledger step [s] and for every deadline [stop] exactly one of
    the two guards holds; at [s = stop] it is [repay]'s; and [repay] and
    [claim-default] on the same loan never both succeed at the same step. *)
Lemma deadline_guards_arith (s stop : N) :
  xorb (repay_deadline_ok s stop) (default_deadline_ok s stop) = true /\
  (repay_deadline_ok s stop = true <-> s <= stop) /\
  (default_deadline_ok s stop = true <-> s > stop) /\
  repay_deadline_ok stop stop = true /\
  default_deadline_ok stop stop = false /\
  forall who1 caller1 who2 caller2 loan_id st,
    succeeds (exec (mk_context who1 caller1 s) (Repay loan_id) st)
    && succeeds (exec (mk_context who2 caller2 s) (ClaimDefault loan_id) st)
    = false.
Proof.
  unfold repay_deadline_ok, default_deadline_ok.
  split; [|split; [|split; [|split; [|split]]]].
  - destruct (N.leb_spec s stop), (N.ltb_spec stop s); simpl; try reflexivity; lia.
  - apply N.leb_le.
  - rewrite N.ltb_lt. lia.
  - apply N.leb_refl.
  - apply N.ltb_irrefl.
  - intros who1 caller1 who2 caller2 loan_id st.
    destruct (succeeds (exec (mk_context who1 caller1 s) (Repay loan_id) st))
      eqn:Hr; [|reflexivity].
    destruct (succeeds
                (exec (mk_context who2 caller2 s) (ClaimDefault loan_id) st))
      eqn:Hc; [|reflexivity].
    exfalso.
    apply repay_needs_deadline in Hr as (l & Hl & Hr).
    apply claim_needs_deadline in Hc as (l' & Hl' & Hc).
    simpl in *. rewrite Hl in Hl'. injection Hl' as <-.
    unfold repay_deadline_ok in Hr. unfold default_deadline_ok in Hc.
    apply N.leb_le in Hr. apply N.ltb_lt in Hc. lia.
Qed.

(** C5: at every ledger step [s] and for every deadline [stop] exactly one
    of the two guards holds, [repay]'s being [s <= stop] and
    [claim-default]'s [s > stop]; at [s = stop] repaying is on time and
    claiming is too early; and whoever the callers are, [repay] and
    [claim-default] on the same loan never both succeed at the same step.
    These are the guards the two functions apply: on a Funded loan with
    deadline [stop], at step [s], [repay] called by the borrower is refused
    as past due exactly when [s > stop], [claim-default] is refused as not
    yet past due exactly when [s <= stop], so that exactly one of the two
    refusals occurs; at [s = stop] it is [claim-default] that is refused,
    and a [repay] whose transfers go through succeeds. *)
Theorem deadline_guards_complementary (s stop : N) :
  xorb (repay_deadline_ok s stop) (default_deadline_ok s stop) = true /\
  (repay_deadline_ok s stop = true <-> s <= stop) /\
  (default_deadline_ok s stop = true <-> s > stop) /\
  repay_deadline_ok stop stop = true /\
  default_deadline_ok stop stop = false /\
  (forall who1 caller1 who2 caller2 loan_id st,
    succeeds (exec (mk_context who1 caller1 s) (Repay loan_id) st)
    && succeeds (exec (mk_context who2 caller2 s) (ClaimDefault loan_id) st)
    = false) /\
  forall cx_r cx_c loan_id st l,
    block_height cx_r = s -> block_height cx_c = s ->
    get_loan loan_id st = Some l ->
    status l = STATUS_FUNDED ->
    end_block l = stop ->
    tx_sender cx_r = borrower l ->
    ((exec cx_r (Repay loan_id) st).1 = err ERR_PAST_DUE <-> s > stop) /\
    ((exec cx_c (ClaimDefault loan_id) st).1 = err ERR_NOT_PAST_DUE
     <-> s <= stop) /\
    ((exec cx_r (Repay loan_id) st).1 = err ERR_PAST_DUE
     <-> (exec cx_c (ClaimDefault loan_id) st).1 <> err ERR_NOT_PAST_DUE) /\
    (s = stop ->
     (exec cx_r (Repay loan_id) st).1 <> err ERR_PAST_DUE /\
     (exec cx_c (ClaimDefault loan_id) st).1 = err ERR_NOT_PAST_DUE /\
     (transfers_succeed cx_r (Repay loan_id) st = true ->
      is_Some (lender l) ->
      (exec cx_r (Repay loan_id) st).1 = ok true)).
Proof.
  destruct (deadline_guards_arith s stop) as (H1 & H2 & H3 & H4 & H5 & H6).
  split; [exact H1|]. split; [exact H2|]. split; [exact H3|].
  split; [exact H4|]. split; [exact H5|]. split; [exact H6|].
  intros cx_r cx_c loan_id st l Hr Hc Hl Hs He Hb.
  pose proof (repay_past_due_iff cx_r loan_id st l Hl Hs Hb) as Hrepay.
  pose proof (claim_not_past_due_iff cx_c loan_id st l Hl Hs) as Hclaim.
  rewrite Hr, He in Hrepay. rewrite Hc, He in Hclaim.
  unfold repay_deadline_ok in Hrepay. unfold default_deadline_ok in Hclaim.
  rewrite N.leb_gt in Hrepay. rewrite N.ltb_ge in Hclaim.
  assert ((exec cx_r (Repay loan_id) st).1 = err ERR_PAST_DUE <-> s > stop)
    as Hrepay' by (rewrite Hrepay; lia).
  split; [exact Hrepay'|]. split; [exact Hclaim|]. split.
  - rewrite Hrepay', Hclaim. lia.
  - intros ->. split; [rewrite Hrepay'; lia|].
    split; [apply Hclaim; lia|].
    intros Ht [who Hlen].
    pose proof (exec_refines_table cx_r (Repay loan_id) st) as Href.
    rewrite Ht in Href.
    assert (spec_preconditions cx_r (Repay loan_id) st = true) as Hp.
    { unfold spec_preconditions. rewrite Hl, Hs, Hb, Hlen, Hr, He.
      rewrite bool_decide_eq_true_2 by reflexivity.
      rewrite N.leb_refl. reflexivity. }
    rewrite Hp in Href. destruct Href as [Hok|(i & l0 & Ho & _)];
      [exact Hok|discriminate Ho].
Qed.

Lemma deadline_guards_complementary_witness :
  (exec (direct wallet_3 23) (Repay 2) stx_loan_funded).1 = ok true /\
  (exec (direct wallet_2 23) (ClaimDefault 2) stx_loan_funded).1
    = err ERR_NOT_PAST_DUE /\
  (exec (direct wallet_1 13) (Repay 1) happy_funded).1 <> err ERR_PAST_DUE /\
  (exec (direct wallet_1 14) (Repay 1) happy_funded).1 = err ERR_PAST_DUE.
Proof.
  destruct (proj2 (proj2 (proj2 (proj2 (proj2 (proj2
              (deadline_guards_complementary 23 23))))))
              (direct wallet_3 23) (direct wallet_2 23) 2 stx_loan_funded
              (merge_funded (opened wallet_3 true 150000 165000 20 false 500)
                 wallet_2 3 23)
              eq_refl eq_refl eq_refl eq_refl eq_refl eq_refl)
    as (_ & _ & _ & Hb).
  destruct (Hb eq_refl) as (_ & Hc & Hok).
  destruct (proj2 (proj2 (proj2 (proj2 (proj2 (proj2
              (deadline_guards_complementary 13 13))))))
              (direct wallet_1 13) (direct wallet_2 13) 1 happy_funded
              (merge_funded (opened wallet_1 false 1000 1100 10 true 500000)
                 wallet_2 3 13)
              eq_refl eq_refl ltac:(vm_compute; reflexivity)
              eq_refl eq_refl eq_refl)
    as (_ & _ & _ & Hb13).
  destruct (proj2 (proj2 (proj2 (proj2 (proj2 (proj2
              (deadline_guards_complementary 14 13))))))
              (direct wallet_1 14) (direct wallet_2 14) 1 happy_funded
              (merge_funded (opened wallet_1 false 1000 1100 10 true 500000)
                 wallet_2 3 13)
              eq_refl eq_refl ltac:(vm_compute; reflexivity)
              eq_refl eq_refl eq_refl)
    as (Hpast & _).
  split; [apply Hok; [vm_compute; reflexivity|eexists; reflexivity]|].
  split; [exact Hc|].
  split; [apply (Hb13 eq_refl)|].
  apply Hpast. reflexivity.
Defined.

(** ** What a call writes to the loan map *)

Lemma exec_effect cx o st :
  (succeeds (exec cx o st) = false /\ (exec cx o st).2 = st) \/
  (succeeds (exec cx o st) = true /\
   exists l',
     transition o (get_loan (operation_id o) st) l' /\
     loans (exec cx o st).2 = <[operation_id o := l']> (loans st)).
Proof.
  unfold succeeds, exec, public_call.
  destruct o; simpl;
    rewrite ?create_loan_spec, ?cancel_loan_spec, ?fund_loan_spec,
      ?repay_spec, ?claim_default_spec;
    repeat (cbv zeta; case_match; simplify_eq; simpl in *;
            try (left; split; reflexivity)).
  all: right; split; [reflexivity|]; eexists; split;
    [|unfold with_loan; simpl; rewrite ?moved_loans; reflexivity].
  all: repeat match goal with
         | H : negb _ = false |- _ => apply negb_false_iff in H
         | H : bool_decide _ = true |- _ => apply bool_decide_eq_true in H
         | H : (_ =? _) = true |- _ => apply N.eqb_eq in H
         | H : (_ <? _) = true |- _ => apply N.ltb_lt in H
         | H : (_ <=? _) = true |- _ => apply N.leb_le in H
         end.
  - match goal with H : get_loan _ _ = None |- _ => rewrite H end.
    constructor; assumption.
  - constructor; assumption.
  - constructor; assumption.
  - constructor; assumption.
  - constructor; assumption.
Qed.

(** ** Status monotonicity *)

Lemma transition_edge o old l' :
  transition o old l' -> edge (status <$> old) (Some (status l')) = true.
Proof. intros []; simpl; rewrite ?H; reflexivity. Qed.

Lemma transition_source_live o l l' :
  transition o (Some l) l' -> terminal (status l) = false.
Proof.
  intros H. inversion H; subst;
    match goal with Hs : status l = _ |- _ => rewrite Hs end; reflexivity.
Qed.

Lemma terminal_stuck cx o st s :
  status_of (operation_id o) st = Some s -> terminal s = true ->
  succeeds (exec cx o st) = false.
Proof.
  intros Hs Ht. destruct (exec_effect cx o st) as [[H _]|[_ (l' & Htr & _)]];
    [exact H|].
  unfold status_of in Hs.
  destruct (get_loan (operation_id o) st) as [l|]; [|discriminate].
  injection Hs as <-. apply transition_source_live in Htr. congruence.
Qed.

Lemma apply_event_status ev st loan_id :
  status_of loan_id (apply_event ev st) = status_of loan_id st \/
  edge (status_of loan_id st) (status_of loan_id (apply_event ev st)) = true.
Proof.
  destruct ev as [cx o|stx sbtc]; simpl; [|left; reflexivity].
  destruct (exec_effect cx o st) as [[_ ->]|[_ (l' & Htr & Hl)]];
    [left; reflexivity|].
  unfold status_of, get_loan. rewrite Hl.
  destruct (decide (operation_id o = loan_id)) as [<-|Hne].
  - right. rewrite lookup_insert_eq. exact (transition_edge _ _ _ Htr).
  - left. rewrite lookup_insert_ne by assumption. reflexivity.
Qed.

Lemma edge_source_live s b : edge (Some s) b = true -> terminal s = false.
Proof.
  destruct b as [s'|]; [|discriminate]. unfold edge, terminal.
  destruct (N.eqb_spec s STATUS_OPEN) as [->|];
    [reflexivity|].
  destruct (N.eqb_spec s STATUS_FUNDED) as [->|]; [reflexivity|discriminate].
Qed.

Lemma edge_target_open a : edge a (Some STATUS_OPEN) = true -> a = None.
Proof.
  destruct a as [s|]; [|reflexivity]. unfold edge.
  rewrite !andb_false_r. discriminate.
Qed.

Lemma edge_target_some a b : edge a b = true -> is_Some b.
Proof. destruct a, b; simpl; eauto; discriminate. Qed.

Lemma path_from_some s b : path (Some s) b -> is_Some b.
Proof.
  intros H. remember (Some s) as a eqn:Ha. revert Ha.
  induction H; intros ->; eauto using edge_target_some.
Qed.

Lemma path_trans a b c : path a b -> path b c -> path a c.
Proof. intros Hab Hbc. induction Hbc; eauto using path. Qed.

Lemma run_path tr : forall st loan_id,
  path (status_of loan_id st) (status_of loan_id (run tr st)).
Proof.
  induction tr as [|ev tr IH]; intros st loan_id; simpl; [constructor|].
  eapply path_trans; [|apply IH].
  destruct (apply_event_status ev st loan_id) as [->|He].
  - constructor.
  - econstructor; [constructor|exact He].
Qed.

Lemma path_terminal s b :
  path (Some s) b -> terminal s = true -> b = Some s.
Proof.
  intros H Ht. remember (Some s) as a eqn:Ha. revert Ha.
  induction H as [|a b c Hab IH Hbc]; intros ->; [reflexivity|].
  rewrite IH in Hbc by reflexivity.
  apply edge_source_live in Hbc. congruence.
Qed.

Lemma path_not_reopened s b :
  path (Some s) b -> s <> STATUS_OPEN -> b <> Some STATUS_OPEN.
Proof.
  intros H Hs. remember (Some s) as a eqn:Ha. revert Ha.
  induction H as [|a b c Hab IH Hbc]; intros -> Hc; [congruence|].
  subst c. apply edge_target_open in Hbc. subst b.
  apply path_from_some in Hab. destruct Hab; discriminate.
Qed.

Lemma exec_status_step cx o st loan_id :
  (succeeds (exec cx o st) = true -> operation_id o = loan_id ->
   edge (status_of loan_id st) (status_of loan_id (exec cx o st).2) = true) /\
  (succeeds (exec cx o st) = false \/ operation_id o <> loan_id ->
   status_of loan_id (exec cx o st).2 = status_of loan_id st).
Proof.
  destruct (exec_effect cx o st) as [[Hf Hst]|[Hok (l' & Htr & Hl)]].
  - split; [congruence|]. intros _. rewrite Hst. reflexivity.
  - split.
    + intros _ <-. unfold status_of, get_loan. rewrite Hl, lookup_insert_eq.
      exact (transition_edge _ _ _ Htr).
    + intros [Hf|Hne]; [congruence|].
      unfold status_of, get_loan. rewrite Hl.
      rewrite lookup_insert_ne by assumption. reflexivity.
Qed.

Lemma run_stepwise tr : forall st loan_id,
  stepwise (visited tr st loan_id) = true.
Proof.
  induction tr as [|ev tr IH]; intros st loan_id; [reflexivity|].
  specialize (IH (apply_event ev st) loan_id).
  change (visited (ev :: tr) st loan_id)
    with (status_of loan_id st :: visited tr (apply_event ev st) loan_id).
  destruct tr as [|ev' tr'];
    cbn [visited stepwise] in *;
    rewrite ?IH, ?andb_true_r;
    (destruct (apply_event_status ev st loan_id) as [-> | ->];
     [rewrite bool_decide_eq_true_2 by reflexivity; reflexivity
     |apply orb_true_r]).
Qed.

(** C6: along every sequence of calls (and of balance changes elsewhere on
    the chain) the status stored for a loan id moves only by single
    transitions of the life cycle: from one event to the next it is either
    unchanged or has taken one of [Open -> Funded], [Open -> Cancelled],
    [Funded -> Repaid], [Funded -> Defaulted] (or "no record" [-> Open]);
    a successful call moves the status of its own loan id along exactly
    one of these transitions, and a failed call or a call on another id
    leaves it as it is.  Hence the status at the end of a trace is
    reached from the status at its start by a path of such transitions; a
    loan in status Repaid, Defaulted or Cancelled stays there and no write
    operation on its id succeeds any more; and a loan that is not Open
    never becomes Open. *)
Theorem statuses_follow_life_cycle tr st loan_id :
  stepwise (visited tr st loan_id) = true /\
  (forall cx o st0,
     (succeeds (exec cx o st0) = true -> operation_id o = loan_id ->
      edge (status_of loan_id st0) (status_of loan_id (exec cx o st0).2)
        = true) /\
     (succeeds (exec cx o st0) = false \/ operation_id o <> loan_id ->
      status_of loan_id (exec cx o st0).2 = status_of loan_id st0)) /\
  path (status_of loan_id st) (status_of loan_id (run tr st)) /\
  (forall s, status_of loan_id st = Some s -> terminal s = true ->
     status_of loan_id (run tr st) = Some s /\
     forall cx o, operation_id o = loan_id ->
                  succeeds (exec cx o (run tr st)) = false) /\
  (forall s, status_of loan_id st = Some s -> s <> STATUS_OPEN ->
     status_of loan_id (run tr st) <> Some STATUS_OPEN).
Proof.
  split; [apply run_stepwise|].
  split; [intros cx o st0; apply exec_status_step|].
  pose proof (run_path tr st loan_id) as Hp.
  split; [exact Hp|split].
  - intros s Hs Ht. rewrite Hs in Hp.
    pose proof (path_terminal _ _ Hp Ht) as Hend.
    split; [exact Hend|].
    intros cx o <-. eapply terminal_stuck; eassumption.
  - intros s Hs Hne. rewrite Hs in Hp. eapply path_not_reopened; eassumption.
Qed.

Lemma statuses_follow_life_cycle_witness :
  status_of 2
    (run [Call (direct wallet_2 4) (FundLoan 2);
          Call (direct wallet_3 5) (CancelLoan 2);
          Call (direct wallet_3 6)
            (CreateLoan 2 true 150000 165000 20 false 500)] cancel_done)
    = Some STATUS_CANCELLED /\
  succeeds
    (exec (direct wallet_3 7) (Repay 2)
       (run [Call (direct wallet_2 4) (FundLoan 2);
             Call (direct wallet_3 5) (CancelLoan 2);
             Call (direct wallet_3 6)
               (CreateLoan 2 true 150000 165000 20 false 500)] cancel_done))
    = false /\
  status_of 2
    (run [Call (direct wallet_2 4) (FundLoan 2);
          Call (direct wallet_3 5) (CancelLoan 2);
          Call (direct wallet_3 6)
            (CreateLoan 2 true 150000 165000 20 false 500)] cancel_done)
    <> Some STATUS_OPEN /\
  edge (status_of 1 happy_created) (status_of 1 happy_funded) = true /\
  status_of 1 (exec (direct wallet_1 4) (Repay 1) happy_funded).2
    = status_of 1 happy_funded.
Proof.
  destruct (statuses_follow_life_cycle
              [Call (direct wallet_2 4) (FundLoan 2);
               Call (direct wallet_3 5) (CancelLoan 2);
               Call (direct wallet_3 6)
                 (CreateLoan 2 true 150000 165000 20 false 500)]
              cancel_done 2) as (_ & _ & _ & Ht & Hn).
  destruct (Ht STATUS_CANCELLED) as [Hs Hstuck];
    [vm_compute; reflexivity|reflexivity|].
  split; [exact Hs|split; [|split; [|split]]].
  - apply Hstuck. reflexivity.
  - apply (Hn STATUS_CANCELLED); [vm_compute; reflexivity|discriminate].
  - apply (proj1 (proj1 (proj2 (statuses_follow_life_cycle [] happy_created 1))
                    (direct wallet_2 3) (FundLoan 1) happy_created));
      [vm_compute; reflexivity|reflexivity].
  - apply (proj2 (proj1 (proj2 (statuses_follow_life_cycle [] happy_funded 1))
                    (direct wallet_1 4) (Repay 1) happy_funded)).
    left. vm_compute. reflexivity.
Defined.

(** ** The lender of a funded loan *)

Lemma transition_funded_lender o old l' :
  transition o old l' ->
  status l' = STATUS_FUNDED ->
  is_Some (lender l').
Proof. intros [] Hs; simpl in *; try discriminate; eauto. Qed.

Lemma apply_event_funded_has_lender ev st :
  funded_has_lender st -> funded_has_lender (apply_event ev st).
Proof.
  intros Hinv. destruct ev as [cx o|stx sbtc]; simpl; [|exact Hinv].
  destruct (exec_effect cx o st) as [[_ ->]|[_ (l' & Htr & Hl)]];
    [exact Hinv|].
  intros loan_id l. unfold get_loan. rewrite Hl.
  destruct (decide (operation_id o = loan_id)) as [<-|Hne].
  - rewrite lookup_insert_eq. intros [= <-].
    eapply transition_funded_lender, Htr.
  - rewrite lookup_insert_ne by assumption. apply Hinv.
Qed.

Lemma run_funded_has_lender tr : forall st,
  funded_has_lender st -> funded_has_lender (run tr st).
Proof.
  induction tr as [|ev tr IH]; intros st Hinv; simpl; [exact Hinv|].
  apply IH, apply_event_funded_has_lender, Hinv.
Qed.

Lemma empty_funded_has_lender st :
  loans st = ∅ -> funded_has_lender st.
Proof.
  intros He loan_id l. unfold get_loan. rewrite He, lookup_empty.
  discriminate.
Qed.

Lemma repay_no_lender_inv cx loan_id st :
  (repay cx loan_id st).1 = err ERR_NO_LENDER ->
  exists l, get_loan loan_id st = Some l /\
            status l = STATUS_FUNDED /\ lender l = None.
Proof.
  rewrite repay_spec.
  destruct (get_loan loan_id st) as [l|]; [|discriminate].
  intros H. exists l. split; [reflexivity|].
  destruct (N.eqb_spec (status l) STATUS_FUNDED) as [Hs|];
    [|discriminate]. split; [exact Hs|].
  destruct (lender l); [|reflexivity]. exfalso. simpl in H.
  repeat (cbv zeta in *; case_match; simplify_eq; simpl in *; simplify_eq);
    try discriminate;
    match goal with
    | Hf : transfer_failure _ _ _ _ _ _ = Some _ |- _ =>
        apply transfer_failure_code in Hf;
        unfold ERR_NO_LENDER, Token.ERR_UNAUTHORIZED in *; lia
    end.
Qed.

Lemma claim_default_no_lender_inv cx loan_id st :
  (claim_default cx loan_id st).1 = err ERR_NO_LENDER ->
  exists l, get_loan loan_id st = Some l /\
            status l = STATUS_FUNDED /\ lender l = None.
Proof.
  rewrite claim_default_spec.
  destruct (get_loan loan_id st) as [l|]; [|discriminate].
  intros H. exists l. split; [reflexivity|].
  destruct (N.eqb_spec (status l) STATUS_FUNDED) as [Hs|];
    [|discriminate]. split; [exact Hs|].
  destruct (lender l); [|reflexivity]. exfalso. simpl in H.
  repeat (cbv zeta in *; case_match; simplify_eq; simpl in *; simplify_eq);
    try discriminate;
    match goal with
    | Hf : transfer_failure _ _ _ _ _ _ = Some _ |- _ =>
        apply transfer_failure_code in Hf;
        unfold ERR_NO_LENDER, Token.ERR_UNAUTHORIZED in *; lia
    end.
Qed.

(** C7: in every state reached from an empty loan map by any sequence of
    calls (and of balance changes elsewhere on the chain), every record in
    status Funded has its lender set, and neither [repay] nor
    [claim-default] returns [ERR-NO-LENDER], whoever calls them, at
    whatever ledger step and for whatever loan id. *)
Theorem funded_loans_have_lender st0 tr :
  loans st0 = ∅ ->
  funded_has_lender (run tr st0) /\
  forall cx loan_id,
    (exec cx (Repay loan_id) (run tr st0)).1 <> err ERR_NO_LENDER /\
    (exec cx (ClaimDefault loan_id) (run tr st0)).1 <> err ERR_NO_LENDER.
Proof.
  intros He.
  assert (funded_has_lender (run tr st0)) as Hinv
    by apply run_funded_has_lender, empty_funded_has_lender, He.
  split; [exact Hinv|].
  intros cx loan_id. unfold exec, body. rewrite !public_call_fst.
  split; intros H.
  - apply repay_no_lender_inv in H as (l & Hl & Hs & Hn).
    destruct (Hinv loan_id l Hl Hs) as [who Hw]. congruence.
  - apply claim_default_no_lender_inv in H as (l & Hl & Hs & Hn).
    destruct (Hinv loan_id l Hl Hs) as [who Hw]. congruence.
Qed.

Lemma funded_loans_have_lender_witness :
  funded_has_lender happy_funded /\
  (exec (direct wallet_1 4) (Repay 1) happy_funded).1 <> err ERR_NO_LENDER /\
  (exec (direct wallet_2 20) (ClaimDefault 1) happy_funded).1
    <> err ERR_NO_LENDER.
Proof.
  destruct (funded_loans_have_lender genesis
              [Call (direct wallet_1 2)
                 (CreateLoan 1 false 1000 1100 10 true 500000);
               Call (direct wallet_2 3) (FundLoan 1)])
    as [Hinv Hcalls]; [reflexivity|].
  split; [exact Hinv|].
  exact (Hcalls (direct wallet_1 4) 1) ||
  (split; [apply (Hcalls (direct wallet_1 4) 1)
          |apply (Hcalls (direct wallet_2 20) 1)]).
Defined.

(** ** The errors of [create-loan] *)

Lemma create_loan_violation cx loan_id ps pa ra d cs ca st :
  pa = 0 \/ ca = 0 \/ d = 0 \/ ra < pa \/ ps = cs ->
  exists e, create_loan cx loan_id ps pa ra d cs ca st = (err e, st) /\
            ERR_LOAN_EXISTS <= e <= ERR_BAD_REPAY.
Proof.
  intros Hv. rewrite create_loan_spec.
  unfold ERR_LOAN_EXISTS, ERR_BAD_REPAY, ERR_SAME_ASSET, ERR_BAD_AMOUNT.
  destruct (negb (bool_decide (get_loan loan_id st = None)));
    [eexists; split; [reflexivity|lia]|].
  destruct (eqb_spec ps cs); [eexists; split; [reflexivity|lia]|].
  destruct (N.ltb_spec 0 pa); simpl; [|eexists; split; [reflexivity|lia]].
  destruct (N.ltb_spec 0 ca); simpl; [|eexists; split; [reflexivity|lia]].
  destruct (N.ltb_spec 0 d); simpl; [|eexists; split; [reflexivity|lia]].
  destruct (N.leb_spec pa ra); simpl; [|eexists; split; [reflexivity|lia]].
  exfalso. destruct Hv as [?|[?|[?|[?|?]]]]; try lia. contradiction.
Qed.

(** C8 (as stated): identical asset kinds are reported with
    [ERR-SAME-ASSET], not with [ERR-BAD-AMOUNT]; so the five violations do
    not share one error code. *)
Lemma create_errors_differ :
  ~ (forall cx loan_id ps pa ra d cs ca st,
       pa = 0 \/ ca = 0 \/ d = 0 \/ ra < pa \/ ps = cs ->
       (exec cx (CreateLoan loan_id ps pa ra d cs ca) st).1
         = err ERR_BAD_AMOUNT).
Proof.
  intros H.
  specialize (H (direct wallet_1 2) 1 true 1000 1100 10 true 500000 genesis).
  assert ((exec (direct wallet_1 2)
             (CreateLoan 1 true 1000 1100 10 true 500000) genesis).1
          = err ERR_SAME_ASSET) as He by (vm_compute; reflexivity).
  rewrite H in He by (repeat right; reflexivity).
  discriminate He.
Qed.

(** C8 (amended): in each of the five cases [create-loan] fails and writes
    nothing; on an unused loan id the error is [ERR-SAME-ASSET] (u109) for
    identical asset kinds, otherwise [ERR-BAD-AMOUNT] (u108) for a zero
    principal amount, collateral amount or duration, otherwise
    [ERR-BAD-REPAY] (u111) for a repay amount below the principal amount. *)
Theorem create_rejects_bad_arguments cx loan_id ps pa ra d cs ca st :
  (pa = 0 \/ ca = 0 \/ d = 0 \/ ra < pa \/ ps = cs ->
   succeeds (exec cx (CreateLoan loan_id ps pa ra d cs ca) st) = false /\
   (exec cx (CreateLoan loan_id ps pa ra d cs ca) st).2 = st) /\
  (get_loan loan_id st = None ->
   (ps = cs ->
    exec cx (CreateLoan loan_id ps pa ra d cs ca) st
      = (err ERR_SAME_ASSET, st)) /\
   (ps <> cs -> pa = 0 \/ ca = 0 \/ d = 0 ->
    exec cx (CreateLoan loan_id ps pa ra d cs ca) st
      = (err ERR_BAD_AMOUNT, st)) /\
   (ps <> cs -> 0 < pa -> 0 < ca -> 0 < d -> ra < pa ->
    exec cx (CreateLoan loan_id ps pa ra d cs ca) st
      = (err ERR_BAD_REPAY, st))).
Proof.
  split.
  - intros Hv.
    destruct (create_loan_violation cx loan_id ps pa ra d cs ca st Hv)
      as (e & He & _).
    unfold succeeds, exec, public_call, body. rewrite He. split; reflexivity.
  - intros Hfree. unfold exec, public_call, body.
    rewrite create_loan_spec, Hfree.
    rewrite bool_decide_eq_true_2 by reflexivity. simpl.
    split; [|split].
    + intros ->. rewrite eqb_reflx. reflexivity.
    + intros Hne Hz. destruct (eqb_spec ps cs); [contradiction|].
      destruct (N.ltb_spec 0 pa); simpl; [|reflexivity].
      destruct (N.ltb_spec 0 ca); simpl; [|reflexivity].
      destruct (N.ltb_spec 0 d); simpl; [|reflexivity].
      lia.
    + intros Hne Hpa Hca Hd Hra. destruct (eqb_spec ps cs); [contradiction|].
      apply N.ltb_lt in Hpa, Hca, Hd. rewrite Hpa, Hca, Hd. simpl.
      destruct (N.leb_spec pa ra); simpl; [lia|reflexivity].
Qed.

Lemma create_rejects_bad_arguments_witness :
  exec (direct wallet_1 2) (CreateLoan 1 true 1000 1100 10 true 500000)
    genesis = (err ERR_SAME_ASSET, genesis) /\
  exec (direct wallet_1 2) (CreateLoan 1 false 0 1100 10 true 500000)
    genesis = (err ERR_BAD_AMOUNT, genesis) /\
  exec (direct wallet_1 2) (CreateLoan 1 false 1000 999 10 true 500000)
    genesis = (err ERR_BAD_REPAY, genesis) /\
  succeeds
    (exec (direct wallet_1 2) (CreateLoan 1 false 1000 1100 0 true 500000)
       genesis) = false.
Proof.
  split; [|split; [|split]].
  - apply (proj2 (create_rejects_bad_arguments (direct wallet_1 2) 1
                    true 1000 1100 10 true 500000 genesis));
      reflexivity.
  - apply (proj2 (create_rejects_bad_arguments (direct wallet_1 2) 1
                    false 0 1100 10 true 500000 genesis));
      [reflexivity|discriminate|left; reflexivity].
  - apply (proj2 (create_rejects_bad_arguments (direct wallet_1 2) 1
                    false 1000 999 10 true 500000 genesis));
      [reflexivity|discriminate|lia..].
  - apply (proj1 (create_rejects_bad_arguments (direct wallet_1 2) 1
                    false 1000 1100 0 true 500000 genesis)).
    right; right; left; reflexivity.
Defined.

(** ** The asset kind of the repayment *)

Lemma transfer_failure_none cx is_stx amount sender recipient st :
  transfer_failure cx is_stx amount sender recipient st = None ->
  amount <> 0 /\ sender <> recipient /\
  amount <= asset_balance is_stx st sender /\
  (is_stx = true -> sender = tx_sender cx).
Proof.
  unfold transfer_failure. intros H.
  repeat (case_match; simplify_eq);
    repeat match goal with
      | H : negb _ = false |- _ => apply negb_false_iff in H
      | H : bool_decide _ = true |- _ => apply bool_decide_eq_true in H
      | H : bool_decide _ = false |- _ => apply bool_decide_eq_false in H
      | H : (_ =? _) = false |- _ => apply N.eqb_neq in H
      | H : (_ <? _) = false |- _ => apply N.ltb_ge in H
      end;
    repeat split; try assumption; try discriminate; auto.
Qed.

Lemma with_loan_balance is_stx loan_id l st who :
  asset_balance is_stx (with_loan loan_id l st) who =
  asset_balance is_stx st who.
Proof. destruct is_stx; reflexivity. Qed.

Lemma repay_ok_inv cx loan_id st st' b :
  exec cx (Repay loan_id) st = (ok b, st') ->
  exists l lender0,
    get_loan loan_id st = Some l /\
    status l = STATUS_FUNDED /\
    tx_sender cx = borrower l /\
    lender l = Some lender0 /\
    transfer_failure cx (principal_is_stx l) (repay_amount l)
      (borrower l) lender0 st = None /\
    transfer_failure cx (collateral_is_stx l) (collateral_amount l)
      contract_self (borrower l)
      (moved (principal_is_stx l) (repay_amount l) (borrower l) lender0 st)
      = None /\
    st' = with_loan loan_id (merge_status l STATUS_REPAID)
            (moved (collateral_is_stx l) (collateral_amount l)
               contract_self (borrower l)
               (moved (principal_is_stx l) (repay_amount l)
                  (borrower l) lender0 st)).
Proof.
  unfold exec, body. rewrite public_call_ok, repay_spec.
  destruct (get_loan loan_id st) as [l|]; [|discriminate].
  destruct (N.eqb_spec (status l) STATUS_FUNDED) as [Hs|]; [|discriminate].
  destruct (decide (tx_sender cx = borrower l)) as [Hb|Hb];
    [rewrite bool_decide_eq_true_2 by assumption
    |rewrite bool_decide_eq_false_2 by assumption; discriminate].
  simpl. rewrite Hb.
  destruct (repay_deadline_ok (block_height cx) (end_block l));
    [|discriminate].
  destruct (lender l) as [lender0|] eqn:Hlen; [|discriminate]. simpl.
  destruct (transfer_failure cx (principal_is_stx l) (repay_amount l)
              (borrower l) lender0 st) eqn:H1; [discriminate|].
  cbv zeta.
  destruct (transfer_failure cx (collateral_is_stx l) (collateral_amount l)
              contract_self (borrower l) _) eqn:H2; [discriminate|].
  intros [= <- <-]. exists l, lender0. repeat split; assumption || reflexivity.
Qed.

(** C9: whenever [repay] succeeds on a loan whose two legs are of different
    asset kinds (as [create-loan] requires), the lender's balance in the
    principal's asset kind grows by exactly [repay-amount] and the
    borrower's balance in that kind shrinks by exactly [repay-amount],
    while in the collateral's asset kind the lender receives nothing and the
    borrower receives exactly [collateral-amount]. *)
Theorem repay_pays_in_principal_asset cx loan_id st st' l b :
  get_loan loan_id st = Some l ->
  collateral_is_stx l = negb (principal_is_stx l) ->
  exec cx (Repay loan_id) st = (ok b, st') ->
  exists lender0,
    lender l = Some lender0 /\
    repay_amount l <= asset_balance (principal_is_stx l) st (borrower l) /\
    asset_balance (principal_is_stx l) st' lender0 =
      asset_balance (principal_is_stx l) st lender0 + repay_amount l /\
    asset_balance (principal_is_stx l) st' (borrower l) =
      asset_balance (principal_is_stx l) st (borrower l) - repay_amount l /\
    asset_balance (collateral_is_stx l) st' lender0 <=
      asset_balance (collateral_is_stx l) st lender0 /\
    asset_balance (collateral_is_stx l) st' (borrower l) =
      asset_balance (collateral_is_stx l) st (borrower l)
      + collateral_amount l.
Proof.
  intros Hl Hk Hok.
  apply repay_ok_inv in Hok
    as (l0 & lender0 & Hl0 & Hs & Hb & Hlen & H1 & H2 & ->).
  rewrite Hl in Hl0. injection Hl0 as <-.
  apply transfer_failure_none in H1 as (_ & Hne1 & Hbal1 & _).
  apply transfer_failure_none in H2 as (_ & Hne2 & _ & _).
  exists lender0. split; [exact Hlen|]. split; [exact Hbal1|].
  rewrite !with_loan_balance.
  set (k := principal_is_stx l) in *.
  rewrite Hk.
  assert (k <> negb k) as Hkk by (destruct k; discriminate).
  assert (negb k <> k) as Hkk' by (destruct k; discriminate).
  rewrite !(moved_kind_other k (negb k)) by assumption.
  rewrite moved_recipient, moved_sender by assumption.
  repeat split.
  - destruct (decide (lender0 = contract_self)) as [->|Hc].
    + rewrite moved_sender by assumption.
      rewrite (moved_kind_other (negb k) k) by assumption. lia.
    + rewrite moved_bystander by congruence.
      rewrite (moved_kind_other (negb k) k) by assumption. lia.
  - rewrite moved_recipient by assumption.
    rewrite (moved_kind_other (negb k) k) by assumption. reflexivity.
Qed.

Lemma repay_pays_in_principal_asset_witness :
  asset_balance true stx_loan_repaid wallet_2 =
    asset_balance true stx_loan_funded wallet_2 + 165000 /\
  asset_balance true stx_loan_repaid wallet_3 =
    asset_balance true stx_loan_funded wallet_3 - 165000 /\
  asset_balance false stx_loan_repaid wallet_2 <=
    asset_balance false stx_loan_funded wallet_2 /\
  asset_balance false stx_loan_repaid wallet_3 =
    asset_balance false stx_loan_funded wallet_3 + 500.
Proof.
  destruct (repay_pays_in_principal_asset (direct wallet_3 10) 2
              stx_loan_funded stx_loan_repaid
              (merge_funded (opened wallet_3 true 150000 165000 20 false 500)
                 wallet_2 3 23) true)
    as (lender0 & Hlen & _ & H1 & H2 & H3 & H4).
  - reflexivity.
  - reflexivity.
  - vm_compute. reflexivity.
  - simpl in Hlen. injection Hlen as <-.
    repeat split; assumption.
Defined.

(** ** Funded loans cannot be settled

    [fund-loan] only goes through with the principal in the token, so the
    collateral of a funded loan is STX, which the contract cannot release:
    from an empty loan map, no [repay] and no [claim-default] ever
    succeeds. *)

Lemma apply_event_legs ev st :
  sent_by_others ev ->
  legs_differ_funded_in_token st ->
  legs_differ_funded_in_token (apply_event ev st).
Proof.
  intros Hsent Hinv. destruct ev as [cx o|stx sbtc]; simpl; [|exact Hinv].
  destruct (exec_effect cx o st) as [[_ ->]|[Hok (l' & Htr & Hl)]];
    [exact Hinv|].
  intros loan_id l0. unfold get_loan. rewrite Hl.
  destruct (decide (operation_id o = loan_id)) as [<-|Hne];
    [|rewrite lookup_insert_ne by assumption; apply Hinv].
  rewrite lookup_insert_eq. intros [= <-].
  inversion Htr as [i who ps pa ra d cs ca Hk|i l Hs Ho Hold|
                    i l who start stop Hs Ho Hold|i l Hs Ho Hold|
                    i l Hs Ho Hold]; subst; simpl in *.
  - split; [|discriminate]. destruct ps, cs; try discriminate; reflexivity.
  - symmetry in Hold. destruct (Hinv _ _ Hold) as [Hlegs _].
    split; [exact Hlegs|discriminate].
  - symmetry in Hold. destruct (Hinv _ _ Hold) as [Hlegs _].
    split; [exact Hlegs|]. intros _.
    destruct (principal_is_stx l) eqn:Hp; [|reflexivity].
    pose proof (stx_escrow_release_fails cx (FundLoan i) st l Hold Hsent Hp).
    congruence.
  - symmetry in Hold. destruct (Hinv _ _ Hold) as [Hlegs _].
    split; [exact Hlegs|discriminate].
  - symmetry in Hold. destruct (Hinv _ _ Hold) as [Hlegs _].
    split; [exact Hlegs|discriminate].
Qed.

Lemma run_legs tr : forall st,
  Forall sent_by_others tr ->
  legs_differ_funded_in_token st ->
  legs_differ_funded_in_token (run tr st).
Proof.
  induction tr as [|ev tr IH]; intros st Hall Hinv; simpl; [exact Hinv|].
  inversion Hall; subst. apply IH; [assumption|].
  apply apply_event_legs; assumption.
Qed.

Lemma funded_loans_are_stuck st0 tr cx loan_id :
  loans st0 = ∅ ->
  Forall sent_by_others tr ->
  tx_sender cx <> contract_self ->
  succeeds (exec cx (Repay loan_id) (run tr st0)) = false /\
  succeeds (exec cx (ClaimDefault loan_id) (run tr st0)) = false.
Proof.
  intros He Hall Hcx.
  assert (legs_differ_funded_in_token (run tr st0)) as Hinv.
  { apply run_legs; [exact Hall|].
    intros i l. unfold get_loan. rewrite He, lookup_empty. discriminate. }
  split.
  - destruct (exec_effect cx (Repay loan_id) (run tr st0))
      as [[H _]|[Hok (l' & Htr & _)]]; [exact H|].
    inversion Htr as [| | |i l Hs Ho Hold|]; subst. symmetry in Hold.
    destruct (Hinv _ _ Hold) as [Hlegs Hp]. rewrite (Hp Hs) in Hlegs.
    apply (stx_escrow_release_fails cx (Repay loan_id) _ l Hold Hcx Hlegs).
  - destruct (exec_effect cx (ClaimDefault loan_id) (run tr st0))
      as [[H _]|[Hok (l' & Htr & _)]]; [exact H|].
    inversion Htr as [| | | |i l Hs Ho Hold]; subst. symmetry in Hold.
    destruct (Hinv _ _ Hold) as [Hlegs Hp]. rewrite (Hp Hs) in Hlegs.
    apply (stx_escrow_release_fails cx (ClaimDefault loan_id) _ l Hold Hcx
             Hlegs).
Qed.

(** ** Sums over maps *)

Section sums.
Context {A : Type} {K : Type} `{Countable K} (w : A -> N).

Lemma sum_over_empty : sum_over K w ∅ = 0.
Proof. unfold sum_over. apply map_fold_empty. Qed.

Lemma sum_over_insert_fresh (m : gmap K A) i x :
  m !! i = None -> sum_over K w (<[i:=x]> m) = w x + sum_over K w m.
Proof.
  intros Hi. unfold sum_over. apply (map_fold_insert_L (fun _ y acc => w y + acc) 0 i x m); [|exact Hi].
  intros. lia.
Qed.

Lemma sum_over_delete (m : gmap K A) i x :
  m !! i = Some x -> sum_over K w m = w x + sum_over K w (delete i m).
Proof.
  intros Hi. unfold sum_over. apply (map_fold_delete_L (fun _ y acc => w y + acc) 0 i x m); [|exact Hi].
  intros. lia.
Qed.

Lemma sum_over_insert (m : gmap K A) i x :
  sum_over K w (<[i:=x]> m) + from_option w 0 (m !! i)
  = w x + sum_over K w m.
Proof.
  destruct (m !! i) as [y|] eqn:Hi; simpl.
  - rewrite <- (insert_delete_eq m i x).
    rewrite sum_over_insert_fresh by apply lookup_delete_eq.
    rewrite (sum_over_delete m i y Hi). lia.
  - rewrite sum_over_insert_fresh by exact Hi. lia.
Qed.

Lemma sum_over_lookup (m : gmap K A) i x :
  m !! i = Some x -> w x <= sum_over K w m.
Proof. intros Hi. rewrite (sum_over_delete m i x Hi). lia. Qed.
End sums.

(** ** Assets are neither created nor destroyed *)

Lemma total_move (m : gmap principal N) amount sender recipient :
  sender <> recipient ->
  amount <= balance m sender ->
  sum_over principal (fun v => v) (move amount sender recipient m)
  = sum_over principal (fun v => v) m.
Proof.
  intros Hne Hb. unfold move. cbv zeta.
  set (m1 := <[sender := balance m sender - amount]> m).
  pose proof (sum_over_insert (fun v : N => v) m sender
                (balance m sender - amount)) as H1.
  pose proof (sum_over_insert (fun v : N => v) m1 recipient
                (balance m1 recipient + amount)) as H2.
  change (from_option (fun v : N => v) 0 (m !! sender))
    with (balance m sender) in H1.
  change (from_option (fun v : N => v) 0 (m1 !! recipient))
    with (balance m1 recipient) in H2.
  fold m1 in H1. cbv beta in H1, H2. lia.
Qed.

Lemma total_asset_moved cx k k' amount sender recipient st :
  transfer_failure cx k' amount sender recipient st = None ->
  total_asset k (moved k' amount sender recipient st) = total_asset k st.
Proof.
  intros Hf. apply transfer_failure_none in Hf as (_ & Hne & Hb & _).
  unfold total_asset, moved, asset_balance in *.
  destruct k, k'; simpl; try reflexivity; apply total_move; assumption.
Qed.

Lemma total_asset_with_loan k loan_id l st :
  total_asset k (with_loan loan_id l st) = total_asset k st.
Proof. destruct k; reflexivity. Qed.

Lemma exec_conserves cx o st is_stx :
  total_asset is_stx (exec cx o st).2 = total_asset is_stx st.
Proof.
  unfold exec, public_call.
  destruct o; simpl;
    rewrite ?create_loan_spec, ?cancel_loan_spec, ?fund_loan_spec,
      ?repay_spec, ?claim_default_spec;
    repeat (cbv zeta; case_match; simplify_eq; simpl; try reflexivity);
    rewrite total_asset_with_loan;
    repeat (erewrite total_asset_moved by eassumption); reflexivity.
Qed.

(** X1: no call of the lending contract, successful or not, changes the
    number of STX or of sBTC in existence: whatever leaves one balance
    enters another. *)
Theorem calls_conserve_assets cx o st is_stx :
  total_asset is_stx (exec cx o st).2 = total_asset is_stx st.
Proof. apply exec_conserves. Qed.

(** ** The escrow covers the collateral of the live loans *)

Lemma asset_balance_moved k k' amount sender recipient st who :
  sender <> recipient ->
  asset_balance k (moved k' amount sender recipient st) who =
  if negb (eqb k k') then asset_balance k st who
  else if bool_decide (who = recipient) then asset_balance k st who + amount
  else if bool_decide (who = sender) then asset_balance k st who - amount
  else asset_balance k st who.
Proof.
  intros Hne. destruct (eqb_spec k k') as [<-|Hk]; simpl.
  - repeat case_bool_decide; subst.
    + apply moved_recipient, Hne.
    + apply moved_sender, Hne.
    + apply moved_bystander; assumption.
  - apply moved_kind_other, Hk.
Qed.

Lemma escrowed_with_loan k loan_id l' st :
  escrowed k (with_loan loan_id l' st)
  + from_option (escrow_due k) 0 (get_loan loan_id st)
  = escrow_due k l' + escrowed k st.
Proof. unfold escrowed, with_loan, get_loan. simpl. apply sum_over_insert. Qed.

Lemma escrowed_moved k k' amount sender recipient st :
  escrowed k (moved k' amount sender recipient st) = escrowed k st.
Proof. unfold escrowed. rewrite moved_loans. reflexivity. Qed.

Lemma escrow_due_lookup k loan_id l st :
  get_loan loan_id st = Some l -> escrow_due k l <= escrowed k st.
Proof. intros Hl. unfold escrowed. eapply sum_over_lookup, Hl. Qed.

Ltac transfer_facts :=
  repeat match goal with
    | H : transfer_failure _ _ _ _ _ _ = None |- _ =>
        apply transfer_failure_none in H as (? & ? & ? & _)
    end.

Ltac guards :=
  repeat match goal with
    | H : negb _ = false |- _ => apply negb_false_iff in H
    | H : bool_decide _ = true |- _ => apply bool_decide_eq_true in H
    | H : (_ =? _) = true |- _ => apply N.eqb_eq in H
    | H : (_ <? _) = true |- _ => apply N.ltb_lt in H
    | H : (_ <=? _) = true |- _ => apply N.leb_le in H
    end.

Lemma exec_solvent cx o st : solvent st -> solvent (exec cx o st).2.
Proof.
  intros Hsol k. specialize (Hsol k).
  unfold exec, public_call.
  destruct o; simpl;
    rewrite ?create_loan_spec, ?cancel_loan_spec, ?fund_loan_spec,
      ?repay_spec, ?claim_default_spec;
    repeat (cbv zeta; case_match; simplify_eq; simpl; try exact Hsol);
    guards;
    match goal with
    | |- escrowed k (with_loan ?i ?l' ?s) <= _ =>
        pose proof (escrowed_with_loan k i l' s) as Hsum;
        rewrite !escrowed_moved in Hsum
    end;
    unfold get_loan in *; rewrite ?moved_loans in Hsum;
    match goal with
    | H : loans st !! _ = _ |- _ =>
        rewrite H in Hsum;
        try (pose proof (escrow_due_lookup k _ _ st H) as Hdue)
    end;
    rewrite with_loan_balance;
    transfer_facts;
    rewrite ?asset_balance_moved in * by assumption;
    unfold escrow_due, live in *; simpl in *;
    repeat match goal with
      | H : status _ = _ |- _ => rewrite H in *
      end;
    simpl in *;
    repeat (case_bool_decide; simplify_eq; try congruence);
    repeat match goal with
      | H : context [eqb ?a ?b] |- _ => destruct (eqb_spec a b); simpl in *
      | |- context [eqb ?a ?b] => destruct (eqb_spec a b); simpl in *
      end;
    try congruence; try lia.
Qed.

Lemma apply_event_solvent ev tr st :
  solvent st -> escrow_untouched (ev :: tr) st ->
  solvent (apply_event ev st).
Proof.
  intros Hsol [Hev _]. destruct ev as [cx o|stx sbtc]; simpl.
  - apply exec_solvent, Hsol.
  - destruct Hev as [Hstx Hsbtc]. intros k. specialize (Hsol k).
    unfold escrowed, asset_balance in *. simpl. destruct k; lia.
Qed.

Lemma run_solvent tr : forall st,
  solvent st -> escrow_untouched tr st -> solvent (run tr st).
Proof.
  induction tr as [|ev tr IH]; intros st Hsol Hun; simpl; [exact Hsol|].
  apply IH; [eapply apply_event_solvent; eassumption|apply Hun].
Qed.

(** X2: starting from an empty loan map, after any sequence of calls of the
    lending contract (and of balance changes elsewhere that do not take
    from the contract's own balances), the contract holds, in each asset
    kind, at least the sum of the collateral of all Open and Funded loans
    of that kind; in particular it holds the collateral of every single
    live loan. *)
Theorem escrow_stays_solvent st0 tr :
  loans st0 = ∅ ->
  escrow_untouched tr st0 ->
  solvent (run tr st0) /\
  forall loan_id l,
    get_loan loan_id (run tr st0) = Some l ->
    live l = true ->
    collateral_amount l
      <= asset_balance (collateral_is_stx l) (run tr st0) contract_self.
Proof.
  intros He Hun.
  assert (solvent (run tr st0)) as Hsol.
  { apply run_solvent; [|exact Hun].
    intros k. unfold escrowed. rewrite He, sum_over_empty. lia. }
  split; [exact Hsol|].
  intros loan_id l Hl Hlive.
  pose proof (escrow_due_lookup (collateral_is_stx l) _ _ _ Hl) as Hdue.
  unfold escrow_due in Hdue. rewrite Hlive, eqb_reflx in Hdue. simpl in Hdue.
  specialize (Hsol (collateral_is_stx l)). lia.
Qed.

Lemma escrow_stays_solvent_witness :
  500000 <= asset_balance true happy_funded contract_self.
Proof.
  apply (proj2 (escrow_stays_solvent genesis
                  [Call (direct wallet_1 2)
                     (CreateLoan 1 false 1000 1100 10 true 500000);
                   Call (direct wallet_2 3) (FundLoan 1)]
                  eq_refl (conj I (conj I I))) 1
           (merge_funded (opened wallet_1 false 1000 1100 10 true 500000)
              wallet_2 3 13)).
  - vm_compute. reflexivity.
  - reflexivity.
Defined.

(** ** Creating a loan *)

(** X3: on an unused loan id, with legs of different kinds, positive
    amounts and duration, a repay amount not below the principal and a
    caller (other than the contract) who holds the collateral,
    [create-loan] succeeds for either collateral kind; afterwards
    [get-loan] returns an Open record with the caller as borrower, no
    lender, start block 0 and the duration in [end-block]; the collateral
    has moved from the caller to the contract, and no balance of the other
    asset kind has changed. *)
Theorem create_loan_ok cx loan_id ps pa ra d cs ca st :
  get_loan loan_id st = None ->
  cs = negb ps ->
  0 < pa -> 0 < ca -> 0 < d -> pa <= ra ->
  tx_sender cx <> contract_self ->
  ca <= asset_balance cs st (tx_sender cx) ->
  exists st',
    exec cx (CreateLoan loan_id ps pa ra d cs ca) st = (ok true, st') /\
    get_loan loan_id st' =
      Some (mk_loan (tx_sender cx) None ps pa cs ca ra 0 d STATUS_OPEN) /\
    asset_balance cs st' contract_self
      = asset_balance cs st contract_self + ca /\
    asset_balance cs st' (tx_sender cx)
      = asset_balance cs st (tx_sender cx) - ca /\
    forall who, asset_balance ps st' who = asset_balance ps st who.
Proof.
  intros Hfree -> Hpa Hca Hd Hra Hself Hbal.
  eexists. split; [|split; [|split; [|split]]].
  - unfold exec, body. apply public_call_ok.
    rewrite create_loan_spec, Hfree.
    rewrite bool_decide_eq_true_2 by reflexivity.
    assert (ca <> 0) as Hnz by lia.
    apply N.ltb_lt in Hpa, Hca, Hd. apply N.leb_le in Hra.
    rewrite Hpa, Hca, Hd, Hra. simpl.
    replace (eqb ps (negb ps)) with false by (destruct ps; reflexivity).
    rewrite own_funds_failure; [reflexivity|exact Hnz|congruence|exact Hbal].
  - unfold get_loan, with_loan. simpl. apply lookup_insert_eq.
  - rewrite with_loan_balance. apply moved_recipient. exact Hself.
  - rewrite with_loan_balance. apply moved_sender. exact Hself.
  - intros who. rewrite with_loan_balance. apply moved_kind_other.
    destruct ps; discriminate.
Qed.

Lemma create_loan_ok_witness :
  exists st',
    exec (direct wallet_3 2) (CreateLoan 2 true 150000 165000 20 false 500)
      genesis = (ok true, st') /\
    get_loan 2 st' =
      Some (mk_loan wallet_3 None true 150000 false 500 165000 0 20
              STATUS_OPEN) /\
    asset_balance false st' contract_self = 500 /\
    asset_balance false st' wallet_3 = 100.
Proof.
  destruct (create_loan_ok (direct wallet_3 2) 2 true 150000 165000 20
              false 500 genesis) as (st' & Hok & Hget & Hc & Hb & _);
    [reflexivity|reflexivity|lia|lia|lia|lia|discriminate
    |vm_compute; discriminate|].
  exists st'. repeat split; assumption.
Defined.

(** X4: [create-loan] on a loan id that is already in the map returns
    [ERR-LOAN-EXISTS] whatever its other arguments (the id is checked
    first), and nothing is overwritten: the state is unchanged. *)
Theorem create_loan_never_overwrites cx loan_id ps pa ra d cs ca st l :
  get_loan loan_id st = Some l ->
  exec cx (CreateLoan loan_id ps pa ra d cs ca) st
    = (err ERR_LOAN_EXISTS, st).
Proof.
  intros Hl. unfold exec, public_call, body.
  rewrite create_loan_spec, Hl.
  rewrite bool_decide_eq_false_2 by discriminate. reflexivity.
Qed.

Lemma create_loan_never_overwrites_witness :
  exec (direct wallet_2 5) (CreateLoan 1 true 7 9 3 false 1) happy_created
    = (err ERR_LOAN_EXISTS, happy_created).
Proof.
  apply (create_loan_never_overwrites (direct wallet_2 5) 1 true 7 9 3
           false 1 happy_created
           (opened wallet_1 false 1000 1100 10 true 500000)).
  vm_compute. reflexivity.
Defined.

(** ** Unknown loans, wrong states, wrong callers *)

(** X5: on a loan id that is not in the map, [get-loan] returns [none] and
    [cancel-loan], [fund-loan], [repay] and [claim-default] all return
    [ERR-LOAN-NOT-FOUND], whoever calls, and change nothing. *)
Theorem unknown_loan_not_found cx loan_id st :
  get_loan loan_id st = None ->
  exec cx (CancelLoan loan_id) st = (err ERR_LOAN_NOT_FOUND, st) /\
  exec cx (FundLoan loan_id) st = (err ERR_LOAN_NOT_FOUND, st) /\
  exec cx (Repay loan_id) st = (err ERR_LOAN_NOT_FOUND, st) /\
  exec cx (ClaimDefault loan_id) st = (err ERR_LOAN_NOT_FOUND, st).
Proof.
  intros Hl. unfold exec, public_call, body.
  rewrite cancel_loan_spec, fund_loan_spec, repay_spec, claim_default_spec, Hl.
  repeat split.
Qed.

Lemma unknown_loan_not_found_witness :
  exec (direct wallet_1 2) (Repay 7) genesis = (err ERR_LOAN_NOT_FOUND, genesis).
Proof.
  apply (unknown_loan_not_found (direct wallet_1 2) 7 genesis). reflexivity.
Defined.

(** X6: the status is checked before anything else: on a stored loan that
    is not Open, [cancel-loan] and [fund-loan] return [ERR-NOT-OPEN], and on
    a stored loan that is not Funded, [repay] and [claim-default] return
    [ERR-NOT-FUNDED], whoever calls and at whatever block height; the state
    is unchanged. *)
Theorem wrong_status_rejected cx loan_id st l :
  get_loan loan_id st = Some l ->
  (status l <> STATUS_OPEN ->
   exec cx (CancelLoan loan_id) st = (err ERR_NOT_OPEN, st) /\
   exec cx (FundLoan loan_id) st = (err ERR_NOT_OPEN, st)) /\
  (status l <> STATUS_FUNDED ->
   exec cx (Repay loan_id) st = (err ERR_NOT_FUNDED, st) /\
   exec cx (ClaimDefault loan_id) st = (err ERR_NOT_FUNDED, st)).
Proof.
  intros Hl. unfold exec, public_call, body.
  rewrite cancel_loan_spec, fund_loan_spec, repay_spec, claim_default_spec, Hl.
  split; intros Hs; apply N.eqb_neq in Hs; rewrite Hs; split; reflexivity.
Qed.

Lemma wrong_status_rejected_witness :
  exec (direct wallet_2 4) (FundLoan 1) happy_funded
    = (err ERR_NOT_OPEN, happy_funded) /\
  exec (direct wallet_1 3) (Repay 1) happy_created
    = (err ERR_NOT_FUNDED, happy_created).
Proof.
  split.
  - apply (proj1 (wrong_status_rejected (direct wallet_2 4) 1 happy_funded
                    (merge_funded
                       (opened wallet_1 false 1000 1100 10 true 500000)
                       wallet_2 3 13) ltac:(vm_compute; reflexivity))).
    discriminate.
  - apply (proj2 (wrong_status_rejected (direct wallet_1 3) 1 happy_created
                    (opened wallet_1 false 1000 1100 10 true 500000)
                    ltac:(vm_compute; reflexivity))).
    discriminate.
Defined.

(** X7: only the stored borrower can cancel or repay and only the stored
    lender can claim a default: a successful [cancel-loan] or [repay] was
    called by the loan's borrower and a successful [claim-default] by its
    lender; on an Open loan [cancel-loan] by anyone else returns
    [ERR-NOT-BORROWER], on a Funded loan [repay] by anyone else returns
    [ERR-NOT-BORROWER] (even past the deadline), and on a Funded loan past
    its deadline [claim-default] by anyone but the lender returns
    [ERR-NOT-LENDER]; the state is unchanged. *)
Theorem roles_enforced cx loan_id st :
  (succeeds (exec cx (CancelLoan loan_id) st) = true ->
   (borrower <$> get_loan loan_id st) = Some (tx_sender cx)) /\
  (succeeds (exec cx (Repay loan_id) st) = true ->
   (borrower <$> get_loan loan_id st) = Some (tx_sender cx)) /\
  (succeeds (exec cx (ClaimDefault loan_id) st) = true ->
   (lender <$> get_loan loan_id st) = Some (Some (tx_sender cx))) /\
  (forall l, get_loan loan_id st = Some l ->
     tx_sender cx <> borrower l ->
     (status l = STATUS_OPEN ->
      exec cx (CancelLoan loan_id) st = (err ERR_NOT_BORROWER, st)) /\
     (status l = STATUS_FUNDED ->
      exec cx (Repay loan_id) st = (err ERR_NOT_BORROWER, st))) /\
  (forall l who, get_loan loan_id st = Some l ->
     status l = STATUS_FUNDED ->
     end_block l < block_height cx ->
     lender l = Some who ->
     tx_sender cx <> who ->
     exec cx (ClaimDefault loan_id) st = (err ERR_NOT_LENDER, st)).
Proof.
  unfold succeeds, exec, public_call, body.
  rewrite cancel_loan_spec, repay_spec, claim_default_spec.
  split; [|split; [|split; [|split]]].
  - destruct (get_loan loan_id st) as [l|]; [|discriminate]. simpl.
    repeat (cbv zeta; case_match; simplify_eq; simpl; try discriminate).
    guards. intros _. congruence.
  - destruct (get_loan loan_id st) as [l|]; [|discriminate]. simpl.
    repeat (cbv zeta; case_match; simplify_eq; simpl; try discriminate).
    guards. intros _. congruence.
  - destruct (get_loan loan_id st) as [l|]; [|discriminate]. simpl.
    repeat (cbv zeta; case_match; simplify_eq; simpl; try discriminate).
    guards. intros _. congruence.
  - intros l Hl Hne. rewrite Hl.
    rewrite (bool_decide_eq_false_2 _ Hne).
    split; intros ->; reflexivity.
  - intros l who Hl Hs Hd Hlen Hne. rewrite Hl, Hs, Hlen.
    unfold default_deadline_ok. apply N.ltb_lt in Hd. rewrite Hd.
    rewrite (bool_decide_eq_false_2 _ Hne). reflexivity.
Qed.

Lemma roles_enforced_witness :
  exec (direct wallet_2 3) (CancelLoan 1) happy_created
    = (err ERR_NOT_BORROWER, happy_created) /\
  exec (direct wallet_2 4) (Repay 1) happy_funded
    = (err ERR_NOT_BORROWER, happy_funded) /\
  exec (direct wallet_1 14) (ClaimDefault 1) happy_funded
    = (err ERR_NOT_LENDER, happy_funded) /\
  (borrower <$> get_loan 2 cancel_created) = Some wallet_3.
Proof.
  split; [|split; [|split]].
  - apply (proj1 (proj1 (proj2 (proj2 (proj2
             (roles_enforced (direct wallet_2 3) 1 happy_created))))
             (opened wallet_1 false 1000 1100 10 true 500000)
             ltac:(vm_compute; reflexivity) ltac:(discriminate))).
    reflexivity.
  - apply (proj2 (proj1 (proj2 (proj2 (proj2
             (roles_enforced (direct wallet_2 4) 1 happy_funded))))
             (merge_funded (opened wallet_1 false 1000 1100 10 true 500000)
                wallet_2 3 13)
             ltac:(vm_compute; reflexivity) ltac:(discriminate))).
    reflexivity.
  - apply (proj2 (proj2 (proj2 (proj2
             (roles_enforced (direct wallet_1 14) 1 happy_funded))))
             (merge_funded (opened wallet_1 false 1000 1100 10 true 500000)
                wallet_2 3 13) wallet_2);
      [vm_compute; reflexivity|reflexivity|reflexivity|reflexivity
      |discriminate].
  - apply (proj1 (roles_enforced (direct wallet_3 3) 2 cancel_created)).
    vm_compute. reflexivity.
Defined.

(** X8: on a Funded loan, [repay] called by the borrower after the deadline
    (block height above [end-block]) returns [ERR-PAST-DUE], and
    [claim-default] called by anyone up to and including the deadline block
    returns [ERR-NOT-PAST-DUE] (the deadline is checked before the caller);
    the state is unchanged. *)
Theorem deadline_enforced cx loan_id st l :
  get_loan loan_id st = Some l ->
  status l = STATUS_FUNDED ->
  (tx_sender cx = borrower l -> end_block l < block_height cx ->
   exec cx (Repay loan_id) st = (err ERR_PAST_DUE, st)) /\
  (block_height cx <= end_block l ->
   exec cx (ClaimDefault loan_id) st = (err ERR_NOT_PAST_DUE, st)).
Proof.
  intros Hl Hs. unfold exec, public_call, body.
  rewrite repay_spec, claim_default_spec, Hl, Hs.
  unfold repay_deadline_ok, default_deadline_ok. split.
  - intros Hb Hd. rewrite (bool_decide_eq_true_2 _ Hb).
    apply N.leb_gt in Hd. rewrite Hd. reflexivity.
  - intros Hd. apply N.ltb_ge in Hd. rewrite Hd. reflexivity.
Qed.

Lemma deadline_enforced_witness :
  exec (direct wallet_1 14) (Repay 1) happy_funded
    = (err ERR_PAST_DUE, happy_funded) /\
  exec (direct wallet_2 13) (ClaimDefault 1) happy_funded
    = (err ERR_NOT_PAST_DUE, happy_funded).
Proof.
  pose proof (deadline_enforced (direct wallet_1 14) 1 happy_funded
                (merge_funded (opened wallet_1 false 1000 1100 10 true 500000)
                   wallet_2 3 13)
                ltac:(vm_compute; reflexivity) eq_refl) as [Hr _].
  pose proof (deadline_enforced (direct wallet_2 13) 1 happy_funded
                (merge_funded (opened wallet_1 false 1000 1100 10 true 500000)
                   wallet_2 3 13)
                ltac:(vm_compute; reflexivity) eq_refl) as [_ Hc].
  split; [apply Hr; [reflexivity|reflexivity]|apply Hc; discriminate].
Defined.

(** ** What a call leaves alone *)

(** X9: a call on one loan id never touches the record stored under any
    other id. *)
Theorem other_loans_untouched cx o st loan_id :
  loan_id <> operation_id o ->
  get_loan loan_id (exec cx o st).2 = get_loan loan_id st.
Proof.
  intros Hne.
  destruct (exec_effect cx o st) as [[_ ->]|[_ (l' & _ & Hl)]];
    [reflexivity|].
  unfold get_loan. rewrite Hl. apply lookup_insert_ne. congruence.
Qed.

Lemma other_loans_untouched_witness :
  get_loan 1 (exec (direct wallet_3 3)
                (CreateLoan 2 true 150000 165000 20 false 500) happy_funded).2
  = get_loan 1 happy_funded.
Proof.
  apply (other_loans_untouched (direct wallet_3 3)
           (CreateLoan 2 true 150000 165000 20 false 500) happy_funded 1).
  discriminate.
Defined.

Lemma transition_same_terms o l l' :
  transition o (Some l) l' -> same_terms l l'.
Proof. intros H. inversion H; subst; repeat split. Qed.

Lemma transition_same_funding o l l' :
  transition o (Some l) l' ->
  status l <> STATUS_OPEN ->
  same_funding l l' /\ status l' <> STATUS_OPEN.
Proof.
  intros H Hs. inversion H; subst; try contradiction;
    repeat split; discriminate.
Qed.

Lemma apply_event_record ev st loan_id l :
  get_loan loan_id st = Some l ->
  exists l',
    get_loan loan_id (apply_event ev st) = Some l' /\
    same_terms l l' /\
    (status l <> STATUS_OPEN ->
     same_funding l l' /\ status l' <> STATUS_OPEN).
Proof.
  intros Hl.
  assert (exists l', Some l = Some l' /\ same_terms l l' /\
            (status l <> STATUS_OPEN ->
             same_funding l l' /\ status l' <> STATUS_OPEN)) as Hsame
    by (exists l; repeat split; assumption).
  destruct ev as [cx o|stx sbtc]; simpl; [|rewrite <- Hl in Hsame; exact Hsame].
  destruct (exec_effect cx o st) as [[_ ->]|[_ (l' & Htr & Hloans)]];
    [rewrite <- Hl in Hsame; exact Hsame|].
  unfold get_loan in *. rewrite Hloans.
  destruct (decide (operation_id o = loan_id)) as [<-|Hne];
    [|rewrite lookup_insert_ne by assumption; rewrite Hl; exact Hsame].
  rewrite lookup_insert_eq. rewrite Hl in Htr. exists l'.
  split; [reflexivity|]. split; [eapply transition_same_terms, Htr|].
  intros Hs. eapply transition_same_funding; eassumption.
Qed.

Lemma run_record tr : forall st loan_id l,
  get_loan loan_id st = Some l ->
  exists l',
    get_loan loan_id (run tr st) = Some l' /\
    same_terms l l' /\
    (status l <> STATUS_OPEN ->
     same_funding l l' /\ status l' <> STATUS_OPEN).
Proof.
  induction tr as [|ev tr IH]; intros st loan_id l Hl; simpl.
  - exists l. repeat split; assumption.
  - destruct (apply_event_record ev st loan_id l Hl) as (l1 & Hl1 & Ht1 & Hf1).
    destruct (IH _ _ _ Hl1) as (l2 & Hl2 & Ht2 & Hf2).
    exists l2. split; [exact Hl2|].
    unfold same_terms, same_funding in *. split; [intuition congruence|].
    intros Hs. destruct (Hf1 Hs) as [Hf1' Hs1].
    destruct (Hf2 Hs1) as [Hf2' Hs2]. intuition congruence.
Qed.

(** X10: a stored loan is never deleted and its terms never change:
    whatever calls follow, the loan id keeps a record with the same
    borrower, the same asset kinds and the same principal, collateral and
    repay amounts. *)
Theorem loan_terms_are_permanent tr st loan_id l :
  get_loan loan_id st = Some l ->
  exists l',
    get_loan loan_id (run tr st) = Some l' /\ same_terms l l'.
Proof.
  intros Hl. destruct (run_record tr st loan_id l Hl) as (l' & Hl' & Ht & _).
  exists l'. split; assumption.
Qed.

Lemma loan_terms_are_permanent_witness :
  exists l',
    get_loan 1 (run [Call (direct wallet_2 3) (FundLoan 1);
                     Call (direct wallet_1 4) (Repay 1)] happy_created)
      = Some l' /\
    same_terms (opened wallet_1 false 1000 1100 10 true 500000) l'.
Proof.
  apply (loan_terms_are_permanent
           [Call (direct wallet_2 3) (FundLoan 1);
            Call (direct wallet_1 4) (Repay 1)] happy_created 1).
  vm_compute. reflexivity.
Defined.

(** X11: once a loan has left status Open, its lender, start block and
    deadline never change again (and it never returns to Open), whatever
    calls follow. *)
Theorem funding_is_permanent tr st loan_id l :
  get_loan loan_id st = Some l ->
  status l <> STATUS_OPEN ->
  exists l',
    get_loan loan_id (run tr st) = Some l' /\
    same_funding l l' /\ status l' <> STATUS_OPEN.
Proof.
  intros Hl Hs. destruct (run_record tr st loan_id l Hl) as (l' & Hl' & _ & Hf).
  exists l'. split; [exact Hl'|apply Hf, Hs].
Qed.

Lemma funding_is_permanent_witness :
  exists l',
    get_loan 1 (run [Call (direct wallet_3 5) (FundLoan 1);
                     Call (direct wallet_2 14) (ClaimDefault 1)] happy_funded)
      = Some l' /\
    same_funding
      (merge_funded (opened wallet_1 false 1000 1100 10 true 500000)
         wallet_2 3 13) l' /\
    status l' <> STATUS_OPEN.
Proof.
  apply (funding_is_permanent
           [Call (direct wallet_3 5) (FundLoan 1);
            Call (direct wallet_2 14) (ClaimDefault 1)] happy_funded 1).
  - vm_compute. reflexivity.
  - discriminate.
Defined.

(** ** The records the contract writes *)

Lemma fund_ok_inv cx loan_id st st' b :
  exec cx (FundLoan loan_id) st = (ok b, st') ->
  exists l,
    get_loan loan_id st = Some l /\
    status l = STATUS_OPEN /\
    block_height cx + end_block l <= UINT_MAX /\
    transfer_failure cx (principal_is_stx l) (principal_amount l)
      (tx_sender cx) contract_self st = None /\
    transfer_failure cx (principal_is_stx l) (principal_amount l)
      contract_self (borrower l)
      (moved (principal_is_stx l) (principal_amount l) (tx_sender cx)
         contract_self st) = None /\
    st' = with_loan loan_id
            (merge_funded l (tx_sender cx) (block_height cx)
               (block_height cx + end_block l))
            (moved (principal_is_stx l) (principal_amount l) contract_self
               (borrower l)
               (moved (principal_is_stx l) (principal_amount l)
                  (tx_sender cx) contract_self st)).
Proof.
  unfold exec, body. rewrite public_call_ok, fund_loan_spec.
  destruct (get_loan loan_id st) as [l|]; [|discriminate].
  destruct (N.eqb_spec (status l) STATUS_OPEN) as [Hs|]; [|discriminate].
  simpl.
  destruct (transfer_failure cx (principal_is_stx l) (principal_amount l)
              (tx_sender cx) contract_self st) eqn:H1; [discriminate|].
  cbv zeta.
  destruct (transfer_failure cx (principal_is_stx l) (principal_amount l)
              contract_self (borrower l) _) eqn:H2; [discriminate|].
  destruct (N.leb_spec (block_height cx + end_block l) UINT_MAX) as [Ho|];
    [|discriminate].
  intros [= <- <-]. exists l. repeat split; assumption || reflexivity.
Qed.

Lemma well_formed_funded l who start :
  well_formed l -> status l = STATUS_OPEN ->
  start + end_block l <= UINT_MAX ->
  well_formed (merge_funded l who start (start + end_block l)).
Proof.
  intros (Hk & Hp & Hc & Hr & Hs & Hopen & Hfun) Ho Hmax.
  destruct (Hopen (or_introl Ho)) as (_ & _ & Hd).
  unfold well_formed; simpl.
  unfold STATUS_FUNDED, STATUS_CANCELLED, STATUS_OPEN in *.
  split; [exact Hk|]. split; [exact Hp|]. split; [exact Hc|].
  split; [exact Hr|]. split; [lia|]. split.
  - intros [?|?]; discriminate.
  - intros _. split; [eauto|lia].
Qed.

Lemma well_formed_status l s :
  well_formed l ->
  status l = STATUS_OPEN /\ s = STATUS_CANCELLED \/
  status l = STATUS_FUNDED /\ (s = STATUS_REPAID \/ s = STATUS_DEFAULTED) ->
  well_formed (merge_status l s).
Proof.
  intros (Hk & Hp & Hc & Hr & Hs & Hopen & Hfun) Hcase.
  unfold well_formed; simpl.
  unfold STATUS_OPEN, STATUS_FUNDED, STATUS_REPAID, STATUS_DEFAULTED,
    STATUS_CANCELLED in *.
  split; [exact Hk|]. split; [exact Hp|]. split; [exact Hc|].
  split; [exact Hr|].
  destruct Hcase as [[Ho ->]|[Hf Hcase]].
  - split; [lia|]. split.
    + intros _. apply Hopen. left. exact Ho.
    + intros [?|[?|?]]; discriminate.
  - split; [destruct Hcase as [->| ->]; lia|]. split.
    + intros [?|?]; destruct Hcase; subst; discriminate.
    + intros _. apply Hfun. left. exact Hf.
Qed.

Lemma well_formed_opened who ps pa ra d cs ca :
  eqb ps cs = false -> 0 < pa -> 0 < ca -> 0 < d -> pa <= ra ->
  well_formed (opened who ps pa ra d cs ca).
Proof.
  intros Hk Hpa Hca Hd Hra. unfold well_formed, opened; simpl.
  unfold STATUS_OPEN, STATUS_FUNDED, STATUS_REPAID, STATUS_DEFAULTED,
    STATUS_CANCELLED.
  split; [destruct ps, cs; try discriminate; reflexivity|].
  split; [exact Hpa|]. split; [exact Hca|]. split; [exact Hra|].
  split; [lia|]. split.
  - intros _. repeat split. exact Hd.
  - intros [?|[?|?]]; discriminate.
Qed.

Lemma apply_event_well_formed ev st :
  (forall loan_id l, get_loan loan_id st = Some l -> well_formed l) ->
  forall loan_id l,
    get_loan loan_id (apply_event ev st) = Some l -> well_formed l.
Proof.
  intros Hinv. destruct ev as [cx o|stx sbtc]; simpl; [|exact Hinv].
  destruct (exec_effect cx o st) as [[_ ->]|[Hok (l' & Htr & Hloans)]];
    [exact Hinv|].
  intros loan_id l. unfold get_loan. rewrite Hloans.
  destruct (decide (operation_id o = loan_id)) as [<-|Hne];
    [|rewrite lookup_insert_ne by assumption; apply Hinv].
  rewrite lookup_insert_eq. intros [= <-].
  inversion Htr as [i who ps pa ra d cs ca Hk Hpa Hca Hd Hra|i l Hs Ho Hold|
                    i l who start stop Hs Ho Hold|i l Hs Ho Hold|
                    i l Hs Ho Hold]; subst; simpl in *.
  - apply well_formed_opened; assumption.
  - symmetry in Hold. apply well_formed_status; [eapply Hinv, Hold|auto].
  - symmetry in Hold.
    destruct (exec cx (FundLoan i) st) as [r st'] eqn:He.
    destruct r as [b| |]; try discriminate Hok.
    apply fund_ok_inv in He as (l0 & Hl0 & _ & Hmax & _ & _ & ->).
    rewrite Hold in Hl0. injection Hl0 as <-.
    unfold with_loan in Hloans. simpl in Hloans. rewrite moved_loans in Hloans.
    rewrite moved_loans in Hloans.
    assert (merge_funded l who start stop =
            merge_funded l (tx_sender cx) (block_height cx)
              (block_height cx + end_block l)) as ->.
    { apply (f_equal (fun m => m !! i)) in Hloans.
      rewrite !lookup_insert_eq in Hloans. congruence. }
    apply well_formed_funded; [eapply Hinv, Hold|exact Hs|exact Hmax].
  - symmetry in Hold. apply well_formed_status; [eapply Hinv, Hold|auto].
  - symmetry in Hold. apply well_formed_status; [eapply Hinv, Hold|auto].
Qed.

(** X12: every record in a loan map built from the empty map by calls of
    the contract has legs of different asset kinds, a positive principal
    and collateral, a repay amount not below the principal and a status
    among the five defined ones; while Open (and when Cancelled) it has no
    lender, start block 0 and a positive duration in [end-block]; once
    funded it has a lender and a deadline above its start block that fits
    in a [uint]. *)
Theorem stored_loans_well_formed tr st0 :
  loans st0 = ∅ ->
  forall loan_id l,
    get_loan loan_id (run tr st0) = Some l -> well_formed l.
Proof.
  intros He.
  assert (forall loan_id l, get_loan loan_id st0 = Some l -> well_formed l)
    as Hinv.
  { intros i l. unfold get_loan. rewrite He, lookup_empty. discriminate. }
  clear He. revert st0 Hinv.
  induction tr as [|ev tr IH]; intros st0 Hinv; simpl; [exact Hinv|].
  apply IH, apply_event_well_formed, Hinv.
Qed.

Lemma stored_loans_well_formed_witness :
  well_formed
    (merge_funded (opened wallet_1 false 1000 1100 10 true 500000)
       wallet_2 3 13).
Proof.
  apply (stored_loans_well_formed
           [Call (direct wallet_1 2)
              (CreateLoan 1 false 1000 1100 10 true 500000);
            Call (direct wallet_2 3) (FundLoan 1)] genesis eq_refl 1).
  vm_compute. reflexivity.
Defined.

(** ** The token side of the escrow *)

(** X13: on an Open loan whose principal is the token, [fund-loan] called
    by anyone (other than the contract) who holds the principal succeeds,
    provided the deadline fits in a [uint]: the record becomes Funded with
    the caller as lender, the current block as start block and start block
    plus duration as deadline; exactly [principal-amount] tokens pass from
    the caller to the borrower, the contract's own balance is the same
    before and after, and no STX balance changes. *)
Theorem fund_token_ok cx loan_id l st :
  get_loan loan_id st = Some l ->
  status l = STATUS_OPEN ->
  principal_is_stx l = false ->
  principal_amount l <> 0 ->
  tx_sender cx <> contract_self ->
  borrower l <> contract_self ->
  principal_amount l <= asset_balance false st (tx_sender cx) ->
  block_height cx + end_block l <= UINT_MAX ->
  exists st',
    exec cx (FundLoan loan_id) st = (ok true, st') /\
    get_loan loan_id st' =
      Some (merge_funded l (tx_sender cx) (block_height cx)
              (block_height cx + end_block l)) /\
    asset_balance false st' contract_self
      = asset_balance false st contract_self /\
    (tx_sender cx <> borrower l ->
     asset_balance false st' (tx_sender cx)
       = asset_balance false st (tx_sender cx) - principal_amount l /\
     asset_balance false st' (borrower l)
       = asset_balance false st (borrower l) + principal_amount l) /\
    forall who, asset_balance true st' who = asset_balance true st who.
Proof.
  intros Hl Hs Hk Ha Hc Hne Hbal Hov.
  eexists. split; [apply (fund_token_principal cx loan_id l st); assumption|].
  split; [unfold get_loan, with_loan; simpl; apply lookup_insert_eq|].
  rewrite !with_loan_balance.
  split; [|split].
  - repeat (rewrite asset_balance_moved by congruence). simpl.
    repeat case_bool_decide; simplify_eq; try congruence; lia.
  - intros Hd. repeat (rewrite asset_balance_moved by congruence). simpl.
    repeat case_bool_decide; simplify_eq; try congruence; split; lia.
  - intros who. repeat (rewrite asset_balance_moved by congruence). reflexivity.
Qed.

Lemma fund_token_ok_witness :
  exists st',
    exec (direct wallet_2 3) (FundLoan 1) happy_created = (ok true, st') /\
    get_loan 1 st' =
      Some (merge_funded (opened wallet_1 false 1000 1100 10 true 500000)
              wallet_2 3 13) /\
    asset_balance false st' wallet_2 = 200 /\
    asset_balance false st' wallet_1 = 1200.
Proof.
  destruct (fund_token_ok (direct wallet_2 3) 1
              (opened wallet_1 false 1000 1100 10 true 500000) happy_created)
    as (st' & Hok & Hget & _ & Hmoved & _);
    [vm_compute; reflexivity|reflexivity|reflexivity|discriminate
    |discriminate|discriminate|vm_compute; discriminate
    |vm_compute; discriminate|].
  destruct Hmoved as [Hl Hb]; [discriminate|].
  exists st'. repeat split; assumption.
Defined.

(** X14: on an Open loan whose collateral is the token, [cancel-loan]
    called by the borrower succeeds: the record becomes Cancelled with
    every other field as before, exactly [collateral-amount] tokens pass
    from the contract to the borrower, and no STX balance changes. *)
Theorem cancel_token_ok cx loan_id l st :
  get_loan loan_id st = Some l ->
  status l = STATUS_OPEN ->
  tx_sender cx = borrower l ->
  collateral_is_stx l = false ->
  collateral_amount l <> 0 ->
  borrower l <> contract_self ->
  collateral_amount l <= asset_balance false st contract_self ->
  exists st',
    exec cx (CancelLoan loan_id) st = (ok true, st') /\
    get_loan loan_id st' = Some (merge_status l STATUS_CANCELLED) /\
    asset_balance false st' (borrower l)
      = asset_balance false st (borrower l) + collateral_amount l /\
    asset_balance false st' contract_self
      = asset_balance false st contract_self - collateral_amount l /\
    forall who, asset_balance true st' who = asset_balance true st who.
Proof.
  intros Hl Hs Hb Hk Ha Hne Hbal.
  eexists. split; [apply (cancel_token_collateral cx loan_id l st); assumption|].
  split; [unfold get_loan, with_loan; simpl; apply lookup_insert_eq|].
  rewrite !with_loan_balance.
  split; [|split].
  - apply moved_recipient. congruence.
  - apply moved_sender. congruence.
  - intros who. rewrite with_loan_balance. apply moved_kind_other. discriminate.
Qed.

Lemma cancel_token_ok_witness :
  exists st',
    exec (direct wallet_3 3) (CancelLoan 2) cancel_created = (ok true, st') /\
    status_of 2 st' = Some STATUS_CANCELLED /\
    asset_balance false st' wallet_3 = 600 /\
    asset_balance false st' contract_self = 0.
Proof.
  destruct (cancel_token_ok (direct wallet_3 3) 2
              (opened wallet_3 true 150000 165000 20 false 500) cancel_created)
    as (st' & Hok & Hget & Hb & Hc & _);
    [vm_compute; reflexivity|reflexivity|reflexivity|reflexivity
    |discriminate|discriminate|vm_compute; discriminate|].
  exists st'. split; [exact Hok|].
  split; [unfold status_of; rewrite Hget; reflexivity|].
  split; assumption.
Defined.

(** X15: on a Funded loan past its deadline whose collateral is the token,
    [claim-default] called by the lender succeeds: the record becomes
    Defaulted with every other field as before and exactly
    [collateral-amount] tokens pass from the contract to the lender. *)
Theorem claim_default_token_ok cx loan_id l st :
  get_loan loan_id st = Some l ->
  status l = STATUS_FUNDED ->
  end_block l < block_height cx ->
  lender l = Some (tx_sender cx) ->
  collateral_is_stx l = false ->
  collateral_amount l <> 0 ->
  tx_sender cx <> contract_self ->
  collateral_amount l <= asset_balance false st contract_self ->
  exists st',
    exec cx (ClaimDefault loan_id) st = (ok true, st') /\
    get_loan loan_id st' = Some (merge_status l STATUS_DEFAULTED) /\
    asset_balance false st' (tx_sender cx)
      = asset_balance false st (tx_sender cx) + collateral_amount l /\
    asset_balance false st' contract_self
      = asset_balance false st contract_self - collateral_amount l /\
    forall who, asset_balance true st' who = asset_balance true st who.
Proof.
  intros Hl Hs Hd Hlen Hk Ha Hne Hbal.
  eexists. split.
  - unfold exec, body. apply public_call_ok.
    rewrite claim_default_spec, Hl, Hs, Hlen, Hk.
    unfold default_deadline_ok. apply N.ltb_lt in Hd. rewrite Hd.
    rewrite bool_decide_eq_true_2 by reflexivity.
    rewrite token_from_escrow_failure by assumption. reflexivity.
  - split; [unfold get_loan, with_loan; simpl; apply lookup_insert_eq|].
    rewrite !with_loan_balance.
    split; [|split].
    + apply moved_recipient. congruence.
    + apply moved_sender. congruence.
    + intros who. rewrite with_loan_balance. apply moved_kind_other. discriminate.
Qed.

Lemma claim_default_token_ok_witness :
  exists st',
    exec (direct wallet_2 24) (ClaimDefault 2) stx_loan_funded
      = (ok true, st') /\
    status_of 2 st' = Some STATUS_DEFAULTED /\
    asset_balance false st' wallet_2 = 500 /\
    asset_balance false st' contract_self = 0.
Proof.
  destruct (claim_default_token_ok (direct wallet_2 24) 2
              (merge_funded (opened wallet_3 true 150000 165000 20 false 500)
                 wallet_2 3 23) stx_loan_funded)
    as (st' & Hok & Hget & Hb & Hc & _);
    [reflexivity|reflexivity|reflexivity|reflexivity|reflexivity
    |discriminate|discriminate|vm_compute; discriminate|].
  exists st'. split; [exact Hok|].
  split; [unfold status_of; rewrite Hget; reflexivity|].
  split; assumption.
Defined.

(** X16: on a Funded loan with the principal in STX and the collateral in
    the token, [repay] called by the borrower up to and including the
    deadline block succeeds when the borrower holds the repay amount and
    the lender is someone else: the record becomes Repaid with every other
    field as before. *)
Theorem repay_token_ok cx loan_id l who st :
  get_loan loan_id st = Some l ->
  status l = STATUS_FUNDED ->
  tx_sender cx = borrower l ->
  block_height cx <= end_block l ->
  lender l = Some who ->
  who <> borrower l ->
  borrower l <> contract_self ->
  principal_is_stx l = true ->
  collateral_is_stx l = false ->
  repay_amount l <> 0 ->
  collateral_amount l <> 0 ->
  repay_amount l <= asset_balance true st (borrower l) ->
  collateral_amount l <= asset_balance false st contract_self ->
  exists st',
    exec cx (Repay loan_id) st = (ok true, st') /\
    get_loan loan_id st' = Some (merge_status l STATUS_REPAID).
Proof.
  intros Hl Hs Hb Hd Hlen Hw Hne Hp Hc Hra Hca Hbal Hesc.
  eexists. split;
    [apply (repay_token_collateral cx loan_id l who st); assumption|].
  unfold get_loan, with_loan; simpl. apply lookup_insert_eq.
Qed.

Lemma repay_token_ok_witness :
  exists st',
    exec (direct wallet_3 23) (Repay 2) stx_loan_funded = (ok true, st') /\
    status_of 2 st' = Some STATUS_REPAID.
Proof.
  destruct (repay_token_ok (direct wallet_3 23) 2
              (merge_funded (opened wallet_3 true 150000 165000 20 false 500)
                 wallet_2 3 23) wallet_2 stx_loan_funded)
    as (st' & Hok & Hget);
    [reflexivity|reflexivity|reflexivity|vm_compute; discriminate
    |reflexivity|discriminate|discriminate|reflexivity|reflexivity
    |discriminate|discriminate|vm_compute; discriminate
    |vm_compute; discriminate|].
  exists st'. split; [exact Hok|].
  unfold status_of. rewrite Hget. reflexivity.
Defined.

(** ** What the contract never does *)

(** X17: a loan whose lender is its own borrower can never be repaid:
    [repay] sends the repay amount from the borrower to the lender, and
    neither [stx-transfer?] nor [ft-transfer?] accepts a transfer to
    oneself. *)
Theorem self_lent_loan_never_repaid cx loan_id st l :
  get_loan loan_id st = Some l ->
  lender l = Some (borrower l) ->
  succeeds (exec cx (Repay loan_id) st) = false.
Proof.
  intros Hl Hlen.
  destruct (exec cx (Repay loan_id) st) as [r st'] eqn:He.
  destruct r as [b| |]; try reflexivity.
  apply repay_ok_inv in He
    as (l0 & lender0 & Hl0 & _ & _ & Hlen0 & Hf & _).
  rewrite Hl in Hl0. injection Hl0 as <-.
  rewrite Hlen in Hlen0. injection Hlen0 as <-.
  apply transfer_failure_none in Hf as (_ & Hne & _). contradiction.
Qed.

Lemma self_lent_loan_never_repaid_witness :
  succeeds (exec (direct wallet_2 4) (Repay 5) self_funded) = false.
Proof.
  apply (self_lent_loan_never_repaid (direct wallet_2 4) 5 self_funded
           (merge_funded (opened wallet_2 false 1000 1100 10 true 500000)
              wallet_2 3 13)).
  - vm_compute. reflexivity.
  - reflexivity.
Defined.

(** X18: STX never leave the escrow: whoever signs the transaction,
    [cancel-loan], [repay] and [claim-default] fail on a loan whose
    collateral is STX, and [fund-loan] fails on a loan whose principal is
    STX, because each of them asks [stx-transfer?] to move the contract's
    STX while the caller is [tx-sender]. *)
Theorem escrowed_stx_never_released cx o st l :
  get_loan (operation_id o) st = Some l ->
  tx_sender cx <> contract_self ->
  match o with
  | CreateLoan _ _ _ _ _ _ _ => False
  | FundLoan _ => principal_is_stx l = true
  | CancelLoan _ | Repay _ | ClaimDefault _ => collateral_is_stx l = true
  end ->
  succeeds (exec cx o st) = false /\ (exec cx o st).2 = st.
Proof.
  intros Hl Hne Hk.
  pose proof (stx_escrow_release_fails cx o st l Hl Hne Hk) as Hfail.
  split; [exact Hfail|].
  destruct (exec_effect cx o st) as [[_ Hst]|[Hok _]]; [exact Hst|congruence].
Qed.

Lemma escrowed_stx_never_released_witness :
  succeeds (exec (direct wallet_2 14) (ClaimDefault 1) happy_funded) = false /\
  (exec (direct wallet_2 14) (ClaimDefault 1) happy_funded).2 = happy_funded.
Proof.
  apply (escrowed_stx_never_released (direct wallet_2 14) (ClaimDefault 1)
           happy_funded
           (merge_funded (opened wallet_1 false 1000 1100 10 true 500000)
              wallet_2 3 13)).
  - vm_compute. reflexivity.
  - discriminate.
  - reflexivity.
Defined.

(** X19: starting from an empty loan map, whatever calls are made (none of
    them sent by the lending contract itself), no [repay] and no
    [claim-default] ever succeeds: only loans with a token principal can
    be funded, their collateral is STX, and STX never leave the escrow. *)
Theorem funded_loans_never_settle st0 tr cx loan_id :
  loans st0 = ∅ ->
  Forall sent_by_others tr ->
  tx_sender cx <> contract_self ->
  succeeds (exec cx (Repay loan_id) (run tr st0)) = false /\
  succeeds (exec cx (ClaimDefault loan_id) (run tr st0)) = false.
Proof. apply funded_loans_are_stuck. Qed.

Lemma funded_loans_never_settle_witness :
  succeeds (exec (direct wallet_1 4) (Repay 1) happy_funded) = false /\
  succeeds (exec (direct wallet_2 14) (ClaimDefault 1) happy_funded) = false.
Proof.
  split.
  - apply (funded_loans_never_settle genesis
             [Call (direct wallet_1 2)
                (CreateLoan 1 false 1000 1100 10 true 500000);
              Call (direct wallet_2 3) (FundLoan 1)]
             (direct wallet_1 4) 1 eq_refl);
      [repeat constructor; discriminate|discriminate].
  - apply (funded_loans_never_settle genesis
             [Call (direct wallet_1 2)
                (CreateLoan 1 false 1000 1100 10 true 500000);
              Call (direct wallet_2 3) (FundLoan 1)]
             (direct wallet_2 14) 1 eq_refl);
      [repeat constructor; discriminate|discriminate].
Defined.

(** X20: inside each of the five public functions every check precedes
    every transfer: when the function body stops with one of the contract's
    own error codes (u100 to u111), it has not written anything yet, even
    before the chain rolls the call back. *)
Theorem contract_errors_precede_writes cx o st e st1 :
  body cx o st = (err e, st1) ->
  ERR_LOAN_EXISTS <= e <= ERR_BAD_REPAY ->
  st1 = st.
Proof. apply checks_precede_transfers. Qed.

Lemma contract_errors_precede_writes_witness :
  (body (direct wallet_2 13) (ClaimDefault 1) happy_funded).2 = happy_funded.
Proof.
  apply (contract_errors_precede_writes (direct wallet_2 13) (ClaimDefault 1)
           happy_funded ERR_NOT_PAST_DUE).
  - vm_compute. reflexivity.
  - vm_compute. split; discriminate.
Defined.

(** ** The token contract *)

Lemma token_transfer_spec cx amount sender recipient st :
  public_call (Token.transfer cx amount sender recipient) st =
  if negb (bool_decide (tx_sender cx = sender)
           || bool_decide (contract_caller cx = sender))
  then (err Token.ERR_UNAUTHORIZED, st)
  else if amount =? 0 then (err 3, st)
  else if bool_decide (sender = recipient) then (err 2, st)
  else if asset_balance false st sender <? amount then (err 1, st)
  else (ok true, moved false amount sender recipient st).
Proof.
  unfold public_call, Token.transfer, bind, asserts, ft_transfer, ret, throw,
    moved, asset_balance; simpl.
  repeat (case_match; simplify_eq; simpl in *; try reflexivity; try congruence).
Qed.

(** X21: [transfer] of the token moves funds only with the consent of
    their holder: when neither [tx-sender] nor [contract-caller] is the
    sender it returns [ERR-UNAUTHORIZED] and changes nothing; when it
    succeeds the caller was authorized, sender and recipient differ, the
    sender held the amount, exactly that amount has passed from the sender
    to the recipient, every other token balance and every STX balance is
    as before and the loan map is untouched. *)
Theorem token_transfer_guarded cx amount sender recipient st :
  (tx_sender cx <> sender -> contract_caller cx <> sender ->
   public_call (Token.transfer cx amount sender recipient) st
     = (err Token.ERR_UNAUTHORIZED, st)) /\
  (forall b st',
     public_call (Token.transfer cx amount sender recipient) st = (ok b, st') ->
     (tx_sender cx = sender \/ contract_caller cx = sender) /\
     sender <> recipient /\
     0 < amount <= Token.get_balance sender st /\
     Token.get_balance sender st' = Token.get_balance sender st - amount /\
     Token.get_balance recipient st'
       = Token.get_balance recipient st + amount /\
     (forall who, who <> sender -> who <> recipient ->
        Token.get_balance who st' = Token.get_balance who st) /\
     stx_balances st' = stx_balances st /\
     loans st' = loans st).
Proof.
  rewrite token_transfer_spec. split.
  - intros H1 H2. rewrite !bool_decide_eq_false_2 by assumption. reflexivity.
  - intros b st' H.
    destruct (negb (bool_decide (tx_sender cx = sender)
                    || bool_decide (contract_caller cx = sender))) eqn:Hauth;
      [discriminate|].
    destruct (N.eqb_spec amount 0); [discriminate|].
    destruct (bool_decide (sender = recipient)) eqn:Hsr; [discriminate|].
    destruct (N.ltb_spec (asset_balance false st sender) amount);
      [discriminate|].
    injection H as <- <-.
    apply bool_decide_eq_false in Hsr.
    apply negb_false_iff, orb_true_iff in Hauth.
    rewrite !bool_decide_eq_true in Hauth.
    split; [exact Hauth|]. split; [exact Hsr|].
    split; [unfold Token.get_balance, asset_balance in *; lia|].
    split; [apply (moved_sender false); exact Hsr|].
    split; [apply (moved_recipient false); exact Hsr|].
    split; [intros who H1 H2; apply (moved_bystander false); assumption|].
    split; reflexivity.
Qed.

Lemma token_transfer_guarded_witness :
  public_call (Token.transfer (direct wallet_1 2) 100 wallet_2 wallet_1) genesis
    = (err Token.ERR_UNAUTHORIZED, genesis) /\
  Token.get_balance wallet_1
    (public_call (Token.transfer (direct wallet_2 2) 100 wallet_2 wallet_1)
       genesis).2 = 300.
Proof.
  split.
  - apply (proj1 (token_transfer_guarded (direct wallet_1 2) 100 wallet_2
                    wallet_1 genesis)); discriminate.
  - destruct (proj2 (token_transfer_guarded (direct wallet_2 2) 100 wallet_2
                       wallet_1 genesis) true
                (public_call
                   (Token.transfer (direct wallet_2 2) 100 wallet_2 wallet_1)
                   genesis).2 ltac:(vm_compute; reflexivity))
      as (_ & _ & _ & _ & Hr & _).
    exact Hr.
Defined.

Lemma total_credit (m : gmap principal N) who amount :
  sum_over principal (fun v => v) (<[who := balance m who + amount]> m)
  = sum_over principal (fun v => v) m + amount.
Proof.
  pose proof (sum_over_insert (fun v : N => v) m who (balance m who + amount))
    as H.
  change (from_option (fun v : N => v) 0 (m !! who)) with (balance m who) in H.
  cbv beta in H. lia.
Qed.

(** X22: only the owner mints, and never nothing: [mint] called by anyone
    but the owner returns [ERR-NOT-OWNER], [mint] of a zero amount by the
    owner returns [(err u1)], and in both cases no balance and no data
    variable changes. *)
Theorem mint_guarded cx amount recipient tv st :
  (tx_sender cx <> TokenSupply.owner tv ->
   TokenSupply.mint cx amount recipient tv st
     = (err Token.ERR_NOT_OWNER, (tv, st))) /\
  (tx_sender cx = TokenSupply.owner tv -> amount = 0 ->
   TokenSupply.mint cx amount recipient tv st = (err 1, (tv, st))).
Proof.
  unfold TokenSupply.mint, TokenSupply.ft_mint. split.
  - intros Hne. rewrite (bool_decide_eq_false_2 _ Hne). reflexivity.
  - intros He ->. rewrite (bool_decide_eq_true_2 _ He). reflexivity.
Qed.

Lemma mint_guarded_witness :
  TokenSupply.mint (direct wallet_1 1) 1200 wallet_1
    (TokenSupply.mk_vars wallet_5 2900) genesis
    = (err Token.ERR_NOT_OWNER, (TokenSupply.mk_vars wallet_5 2900, genesis)) /\
  TokenSupply.mint (direct wallet_5 1) 0 wallet_1
    (TokenSupply.mk_vars wallet_5 2900) genesis
    = (err 1, (TokenSupply.mk_vars wallet_5 2900, genesis)).
Proof.
  split.
  - apply (proj1 (mint_guarded (direct wallet_1 1) 1200 wallet_1
                    (TokenSupply.mk_vars wallet_5 2900) genesis)).
    discriminate.
  - apply (proj2 (mint_guarded (direct wallet_5 1) 0 wallet_1
                    (TokenSupply.mk_vars wallet_5 2900) genesis));
      reflexivity.
Defined.

(** X23: [mint] of a positive amount by the owner, when the supply stays
    within a [uint], succeeds: the recipient's balance and
    [get-total-supply] both grow by exactly the amount, the number of tokens
    in existence grows by the amount, and the owner, every other token
    balance, the STX balances and the loan map are as before. *)
Theorem mint_ok cx amount recipient tv st :
  tx_sender cx = TokenSupply.owner tv ->
  0 < amount ->
  total_asset false st + amount <= UINT_MAX ->
  TokenSupply.total_supply tv + amount <= UINT_MAX ->
  exists tv' st',
    TokenSupply.mint cx amount recipient tv st = (ok true, (tv', st')) /\
    Token.get_balance recipient st' = Token.get_balance recipient st + amount /\
    (forall who, who <> recipient ->
       Token.get_balance who st' = Token.get_balance who st) /\
    TokenSupply.get_total_supply tv'
      = TokenSupply.get_total_supply tv + amount /\
    TokenSupply.owner tv' = TokenSupply.owner tv /\
    total_asset false st' = total_asset false st + amount /\
    stx_balances st' = stx_balances st /\
    loans st' = loans st.
Proof.
  intros Ho Ha Hsum Hvar.
  unfold TokenSupply.mint, TokenSupply.ft_mint.
  rewrite (bool_decide_eq_true_2 _ Ho). simpl.
  destruct (N.eqb_spec amount 0); [lia|].
  destruct (N.ltb_spec UINT_MAX (total_asset false st + amount)); [lia|].
  destruct (N.leb_spec (TokenSupply.total_supply tv + amount) UINT_MAX);
    [|lia].
  eexists _, _. split; [reflexivity|].
  unfold Token.get_balance, balance, total_asset; simpl.
  split; [rewrite lookup_insert_eq; reflexivity|].
  split; [intros who Hw; rewrite lookup_insert_ne by congruence; reflexivity|].
  split; [reflexivity|]. split; [reflexivity|].
  split; [apply total_credit|]. split; reflexivity.
Qed.

Lemma mint_ok_witness :
  exists tv' st',
    TokenSupply.mint (direct wallet_5 1) 1200 wallet_2
      (TokenSupply.mk_vars wallet_5 0)
      (mk_chain ∅ (stx_balances genesis) ∅) = (ok true, (tv', st')) /\
    Token.get_balance wallet_2 st' = 1200 /\
    TokenSupply.get_total_supply tv' = 1200.
Proof.
  destruct (mint_ok (direct wallet_5 1) 1200 wallet_2
              (TokenSupply.mk_vars wallet_5 0)
              (mk_chain ∅ (stx_balances genesis) ∅))
    as (tv' & st' & Hm & Hb & _ & Hs & _);
    [reflexivity|reflexivity|vm_compute; discriminate
    |vm_compute; discriminate|].
  exists tv', st'. repeat split; assumption.
Defined.

Lemma mint_keeps_count cx amount recipient tv st :
  TokenSupply.total_supply tv = total_asset false st ->
  let s' := (TokenSupply.mint cx amount recipient tv st).2 in
  TokenSupply.total_supply s'.1 = total_asset false s'.2 /\
  TokenSupply.owner s'.1 = TokenSupply.owner tv.
Proof.
  intros Hinv. unfold TokenSupply.mint, TokenSupply.ft_mint.
  repeat (case_match; simplify_eq; simpl; try (split; [exact Hinv|reflexivity])).
  split; [|reflexivity].
  unfold total_asset; simpl. rewrite total_credit.
  unfold total_asset in Hinv. lia.
Qed.

Lemma token_transfer_conserves cx amount sender recipient st :
  total_asset false
    (public_call (Token.transfer cx amount sender recipient) st).2
  = total_asset false st.
Proof.
  rewrite token_transfer_spec.
  repeat (case_match; simpl; try reflexivity).
  unfold total_asset, moved; simpl. apply total_move.
  - match goal with H : bool_decide _ = false |- _ =>
      apply bool_decide_eq_false in H; exact H end.
  - match goal with H : (_ <? _) = false |- _ =>
      apply N.ltb_ge in H; exact H end.
Qed.

Lemma apply_token_event_count ev s :
  TokenSupply.total_supply s.1 = total_asset false s.2 ->
  TokenSupply.total_supply (TokenSupply.apply_token_event ev s).1
    = total_asset false (TokenSupply.apply_token_event ev s).2 /\
  TokenSupply.owner (TokenSupply.apply_token_event ev s).1
    = TokenSupply.owner s.1.
Proof.
  intros Hinv. destruct ev as [cx a r|cx a sd r|cx o]; simpl.
  - apply mint_keeps_count, Hinv.
  - rewrite token_transfer_conserves. split; [exact Hinv|reflexivity].
  - rewrite exec_conserves. split; [exact Hinv|reflexivity].
Qed.

(** X24: [get-total-supply] is the number of tokens in existence: starting
    with a supply of 0 and no balances, after any sequence of mints, direct
    transfers and calls of the lending contract, by whomever and with
    whatever result, the [total-supply] variable equals the sum of all token
    balances, and the owner is still the deployer. *)
Theorem total_supply_is_sum_of_balances tr tv0 st0 :
  TokenSupply.total_supply tv0 = 0 ->
  sbtc_balances st0 = ∅ ->
  TokenSupply.get_total_supply (TokenSupply.run_token tr (tv0, st0)).1
    = total_asset false (TokenSupply.run_token tr (tv0, st0)).2 /\
  TokenSupply.owner (TokenSupply.run_token tr (tv0, st0)).1
    = TokenSupply.owner tv0.
Proof.
  intros Hz He.
  assert (TokenSupply.total_supply (tv0, st0).1
          = total_asset false (tv0, st0).2) as Hinv.
  { simpl. unfold total_asset. rewrite Hz, He, sum_over_empty. reflexivity. }
  change (TokenSupply.owner tv0) with (TokenSupply.owner (tv0, st0).1).
  generalize dependent (tv0, st0). clear.
  induction tr as [|ev tr IH]; intros s Hinv; simpl; [split; auto|].
  destruct (apply_token_event_count ev s Hinv) as [Hinv' Ho].
  destruct (IH _ Hinv') as [H1 H2]. split; [exact H1|congruence].
Qed.

Lemma total_supply_is_sum_of_balances_witness :
  TokenSupply.get_total_supply
    (TokenSupply.run_token
       [TokenSupply.Mint (direct wallet_5 1) 1200 wallet_2;
        TokenSupply.Mint (direct wallet_2 1) 50 wallet_2;
        TokenSupply.Transfer (direct wallet_2 2) 200 wallet_2 wallet_1;
        TokenSupply.Lending (direct wallet_1 2)
          (CreateLoan 1 true 1000 1100 10 false 150)]
       (TokenSupply.mk_vars wallet_5 0,
        mk_chain ∅ (stx_balances genesis) ∅)).1 = 1200.
Proof.
  destruct (total_supply_is_sum_of_balances
              [TokenSupply.Mint (direct wallet_5 1) 1200 wallet_2;
               TokenSupply.Mint (direct wallet_2 1) 50 wallet_2;
               TokenSupply.Transfer (direct wallet_2 2) 200 wallet_2 wallet_1;
               TokenSupply.Lending (direct wallet_1 2)
                 (CreateLoan 1 true 1000 1100 10 false 150)]
              (TokenSupply.mk_vars wallet_5 0)
              (mk_chain ∅ (stx_balances genesis) ∅) eq_refl eq_refl)
    as [Hsum _].
  eapply eq_trans; [exact Hsum|]. vm_compute. reflexivity.
Defined.

(** ** Edge of the [uint] range, and a round trip *)

(** X25: [fund-loan] computes the deadline as block height plus stored
    duration; when that sum does not fit in a [uint] the call cannot
    succeed, whoever calls and whatever the asset kinds, and nothing
    changes: a loan created with such a duration can only be cancelled. *)
Theorem fund_fails_on_deadline_overflow cx loan_id st l :
  get_loan loan_id st = Some l ->
  UINT_MAX < block_height cx + end_block l ->
  succeeds (exec cx (FundLoan loan_id) st) = false /\
  (exec cx (FundLoan loan_id) st).2 = st.
Proof.
  intros Hl Hov.
  assert (succeeds (exec cx (FundLoan loan_id) st) = false) as Hfail.
  { destruct (exec cx (FundLoan loan_id) st) as [r st'] eqn:He.
    destruct r as [b| |]; try reflexivity.
    apply fund_ok_inv in He as (l0 & Hl0 & _ & Hmax & _).
    rewrite Hl in Hl0. injection Hl0 as <-. lia. }
  split; [exact Hfail|].
  destruct (exec_effect cx (FundLoan loan_id) st) as [[_ Hst]|[Hok _]];
    [exact Hst|congruence].
Qed.

Lemma fund_fails_on_deadline_overflow_witness :
  succeeds
    (exec (direct wallet_2 3) (FundLoan 9)
       (exec (direct wallet_1 2)
          (CreateLoan 9 false 1000 1100 UINT_MAX true 500000) genesis).2)
  = false.
Proof.
  apply (fund_fails_on_deadline_overflow (direct wallet_2 3) 9
           (exec (direct wallet_1 2)
              (CreateLoan 9 false 1000 1100 UINT_MAX true 500000) genesis).2
           (opened wallet_1 false 1000 1100 UINT_MAX true 500000)).
  - vm_compute. reflexivity.
  - vm_compute. reflexivity.
Defined.

(** X26: creating a loan with token collateral and cancelling it before it
    is funded is a round trip: both calls succeed, the record stays in the
    map as Cancelled, and every balance of every principal, in both asset
    kinds, is what it was before the loan was created. *)
Theorem create_then_cancel_restores cx cx' loan_id pa ra d ca st :
  get_loan loan_id st = None ->
  0 < pa -> 0 < ca -> 0 < d -> pa <= ra ->
  tx_sender cx <> contract_self ->
  ca <= asset_balance false st (tx_sender cx) ->
  tx_sender cx' = tx_sender cx ->
  succeeds (exec cx (CreateLoan loan_id true pa ra d false ca) st) = true /\
  succeeds
    (exec cx' (CancelLoan loan_id)
       (exec cx (CreateLoan loan_id true pa ra d false ca) st).2) = true /\
  status_of loan_id
    (exec cx' (CancelLoan loan_id)
       (exec cx (CreateLoan loan_id true pa ra d false ca) st).2).2
    = Some STATUS_CANCELLED /\
  forall k who,
    asset_balance k
      (exec cx' (CancelLoan loan_id)
         (exec cx (CreateLoan loan_id true pa ra d false ca) st).2).2 who
    = asset_balance k st who.
Proof.
  intros Hfree Hpa Hca Hd Hra Hself Hbal Hsame.
  assert (ca <> 0) as Hnz by lia.
  assert (exec cx (CreateLoan loan_id true pa ra d false ca) st
          = (ok true,
             with_loan loan_id (opened (tx_sender cx) true pa ra d false ca)
               (moved false ca (tx_sender cx) contract_self st))) as Hc.
  { unfold exec, body. apply public_call_ok.
    rewrite create_loan_spec, Hfree.
    rewrite bool_decide_eq_true_2 by reflexivity.
    apply N.ltb_lt in Hpa, Hca, Hd. apply N.leb_le in Hra.
    rewrite Hpa, Hca, Hd, Hra. simpl.
    rewrite own_funds_failure; [reflexivity|exact Hnz|congruence|exact Hbal]. }
  rewrite Hc. cbn [snd].
  set (st1 := with_loan loan_id (opened (tx_sender cx) true pa ra d false ca)
                (moved false ca (tx_sender cx) contract_self st)).
  assert (exec cx' (CancelLoan loan_id) st1
          = (ok true,
             with_loan loan_id
               (merge_status (opened (tx_sender cx) true pa ra d false ca)
                  STATUS_CANCELLED)
               (moved false ca contract_self (tx_sender cx) st1))) as Hx.
  { apply (cancel_token_collateral cx' loan_id
             (opened (tx_sender cx) true pa ra d false ca) st1);
      try reflexivity; try assumption.
    - unfold st1, get_loan, with_loan. simpl. apply lookup_insert_eq.
    - unfold st1. rewrite with_loan_balance.
      rewrite moved_recipient by assumption. simpl. lia. }
  rewrite Hx. cbn [snd].
  split; [reflexivity|]. split; [reflexivity|]. split.
  - unfold status_of, get_loan, with_loan. simpl.
    rewrite lookup_insert_eq. reflexivity.
  - intros k who. unfold st1.
    repeat first [rewrite with_loan_balance
                 |rewrite asset_balance_moved by congruence].
    destruct k; simpl; [reflexivity|]. unfold asset_balance in Hbal.
    repeat case_bool_decide; simplify_eq; try congruence; lia.
Qed.

Lemma create_then_cancel_restores_witness :
  asset_balance false
    (exec (direct wallet_3 3) (CancelLoan 2)
       (exec (direct wallet_3 2)
          (CreateLoan 2 true 150000 165000 20 false 500) genesis).2).2
    wallet_3
  = asset_balance false genesis wallet_3.
Proof.
  apply (create_then_cancel_restores (direct wallet_3 2) (direct wallet_3 3)
           2 150000 165000 20 500 genesis);
    [reflexivity|lia|lia|lia|lia|discriminate|vm_compute; discriminate
    |reflexivity].
Defined.
